(** * FaceFindrLite: the terminal viewport controller of [main.py]

    A shallow embedding of the camera and viewport code of [main.py]
    (the motion buffer, the camera offsets, the toroidal window
    extraction and the per-frame render loop), and the properties of
    the design document checked against it.

    Python values are modelled as follows: [int] is [Z]; [float] is the
    kernel's binary64 [float]; a [str] is a [string] and a list of
    one-character strings is a [list ascii]; an exception is a
    constructor of [exn] carried by [result]. *)

From Stdlib Require Import ZArith QArith Qround List Ascii String Bool Lia Lqa.
From Stdlib Require Import PrimFloat SpecFloat FloatOps.
Import ListNotations.

Open Scope Z_scope.

(** ** Exceptions and results *)

Inductive exn : Type :=
| CursesError
| IndexError
| ZeroDivisionError
| ValueError
| OverflowError
| Exception (msg : string).

Inductive result (A : Type) : Type :=
| Ok (a : A)
| Raise (e : exn).
Arguments Ok {A} a.
Arguments Raise {A} e.

Definition is_curses_error {A} (r : result A) : bool :=
  match r with
  | Raise CursesError => true
  | _ => false
  end.

(** ** Python integers and floats *)

Module Py.

(** [a % b] on integers: the sign follows the divisor, as [Z.modulo]. *)
Definition mod_ (a b : Z) : result Z :=
  if b =? 0 then Raise ZeroDivisionError else Ok (a mod b).

(** The exact value of a finite binary64 number as a rational. *)
Definition pow2Q (e : Z) : Q :=
  match e with
  | Z0 => 1%Q
  | Zpos p => inject_Z (Z.pow_pos 2 p)
  | Zneg p => (1 # Pos.pow 2 p)%Q
  end.

Definition SF2Q (x : spec_float) : option Q :=
  match x with
  | S754_zero _ => Some 0%Q
  | S754_finite s m e =>
      let v := (inject_Z (Zpos m) * pow2Q e)%Q in
      Some (if s then Qopp v else v)
  | S754_infinity _ | S754_nan => None
  end.

Definition value (f : float) : option Q := SF2Q (Prim2SF f).

(** Rounding of a rational toward zero. *)
Definition Qtrunc (q : Q) : Z := Z.quot (Qnum q) (Zpos (Qden q)).

(** [int(f)] on a float: the value rounded toward zero; [int(nan)] raises
    ValueError and [int(inf)] raises OverflowError. *)
Definition int_of_float (f : float) : result Z :=
  match Prim2SF f with
  | S754_nan => Raise ValueError
  | S754_infinity _ => Raise OverflowError
  | x => match SF2Q x with
         | Some q => Ok (Qtrunc q)
         | None => Raise ValueError
         end
  end.

(** [float(n)] on an integer: the nearest binary64 number, ties to even;
    an integer too large for a float raises OverflowError.  This is the
    conversion Python applies to the integer operand of [n * 0.2]. *)
Definition float_of_int (n : Z) : result float :=
  match binary_normalize prec emax n 0 false with
  | S754_infinity _ => Raise OverflowError
  | x => Ok (SF2Prim x)
  end.

(** ** Sequences: indexing and slicing *)

Section Seq.
Context {A : Type}.

Definition len (l : list A) : Z := Z.of_nat (List.length l).

(** [l[i]]: a negative index counts from the end; out of range raises
    IndexError. *)
Definition getitem (l : list A) (i : Z) : result A :=
  let j := if i <? 0 then i + len l else i in
  if (j <? 0) || (len l <=? j) then Raise IndexError
  else match nth_error l (Z.to_nat j) with
       | Some a => Ok a
       | None => Raise IndexError
       end.

Fixpoint set_nth (l : list A) (n : nat) (a : A) : list A :=
  match l, n with
  | [], _ => []
  | _ :: t, O => a :: t
  | h :: t, S n' => h :: set_nth t n' a
  end.

(** [l[i] = a], as a new list. *)
Definition setitem (l : list A) (i : Z) (a : A) : result (list A) :=
  let j := if i <? 0 then i + len l else i in
  if (j <? 0) || (len l <=? j) then Raise IndexError
  else Ok (set_nth l (Z.to_nat j) a).

(** A slice bound is brought into [0, len l]: a negative bound counts
    from the end and every bound is clamped. *)
Definition clamp (l : list A) (i : Z) : Z :=
  if i <? 0 then Z.max (i + len l) 0 else Z.min i (len l).

(** [l[a:b]]. *)
Definition slice (l : list A) (a b : Z) : list A :=
  let lo := clamp l a in
  let hi := clamp l b in
  firstn (Z.to_nat (hi - lo)) (skipn (Z.to_nat lo) l).
End Seq.

(** ["".join(cs)] for a list of one-character strings. *)
Definition join (cs : list ascii) : string := string_of_list_ascii cs.

(** [s[a:b]] on a string. *)
Definition str_slice (s : string) (a b : Z) : string :=
  join (slice (list_ascii_of_string s) a b).

(** [range(n)]. *)
Definition range (n : Z) : list Z := List.map Z.of_nat (seq 0 (Z.to_nat n)).

(** [range(a, b)]. *)
Definition range2 (a b : Z) : list Z :=
  List.map (fun k => a + Z.of_nat k) (seq 0 (Z.to_nat (b - a))).

End Py.

(** ** Constants of [main.py] *)

Definition SCENE_WIDTH_MULTIPLIER : Z := 4.
Definition SCENE_HEIGHT_MULTIPLIER : Z := 3.
Definition SCROLL_SPEED : float := 0x1.999999999999ap-3%float.  (* 0.2 *)

(** ** The process state

    The three module-level variables of [main.py], and the calls the
    display and cursor collaborators have received so far (latest last).
    [scene_offset] and [vertical_offset] start as the integer [0] and are
    floats from the first frame on; [0 - x] on an integer and a float is
    the float subtraction [0.0 - x], so they are floats here from the
    start. *)

Inductive call : Type :=
| Clear
| AddStr (y x : Z) (s : string)
| AddCh (y x : Z) (c : ascii)
| HideCursor
| WarpCursor
| DetachCursor
| CursSet (visibility : Z)
| NoDelay (flag : bool)
| Refresh.

Record world : Type := mkWorld {
  scene_offset : float;
  vertical_offset : float;
  mouse_delta_buffer : Z * Z;
  calls : list call
}.

Definition initial_world : world :=
  {| scene_offset := 0%float;
     vertical_offset := 0%float;
     mouse_delta_buffer := (0, 0);
     calls := [] |}.

(** ** A state and exception monad for the statements of [main.py] *)

Definition M (A : Type) : Type := world -> result A * world.

Definition ret {A} (a : A) : M A := fun w => (Ok a, w).

Definition bind {A B} (m : M A) (k : A -> M B) : M B :=
  fun w =>
    match m w with
    | (Ok a, w') => k a w'
    | (Raise e, w') => (Raise e, w')
    end.

Definition lift {A} (r : result A) : M A := fun w => (r, w).

Definition get {A} (proj : world -> A) : M A := fun w => (Ok (proj w), w).

Definition modify (f : world -> world) : M unit := fun w => (Ok tt, f w).

Declare Scope py_scope.
Delimit Scope py_scope with py.
Notation "x <- m ;; k" := (bind m (fun x => k))
  (at level 100, m at next level, right associativity) : py_scope.
Notation "m ;; k" := (bind m (fun _ => k))
  (at level 100, right associativity) : py_scope.
Open Scope py_scope.

(** [try: m except curses.error: pass] *)
Definition try_except_curses (m : M unit) : M unit :=
  fun w =>
    match m w with
    | (Raise CursesError, w') => (Ok tt, w')
    | r => r
    end.

(** [for x in l: body x] *)
Fixpoint for_each {A} (l : list A) (body : A -> M unit) : M unit :=
  match l with
  | [] => ret tt
  | x :: t => body x ;; for_each t body
  end.

Definition set_scene_offset (f : float) (w : world) : world :=
  mkWorld f (vertical_offset w) (mouse_delta_buffer w) (calls w).
Definition set_vertical_offset (f : float) (w : world) : world :=
  mkWorld (scene_offset w) f (mouse_delta_buffer w) (calls w).
Definition set_mouse_delta_buffer (b : Z * Z) (w : world) : world :=
  mkWorld (scene_offset w) (vertical_offset w) b (calls w).
Definition record_call (c : call) (w : world) : world :=
  mkWorld (scene_offset w) (vertical_offset w) (mouse_delta_buffer w)
          (calls w ++ [c]).

(** A collaborator call that cannot fail. *)
Definition emit (c : call) : M unit := modify (record_call c).

(** ** [mouse_event_callback] (lines 26-41), for a mouse-moved event *)

(** Line 36: [mouse_delta_buffer[0] += dx]. *)
Definition callback_add_x (dx : Z) : M unit :=
  modify (fun w => let '(bx, by_) := mouse_delta_buffer w in
                   set_mouse_delta_buffer (bx + dx, by_) w).

(** Line 37: [mouse_delta_buffer[1] -= dy]. *)
Definition callback_sub_y (dy : Z) : M unit :=
  modify (fun w => let '(bx, by_) := mouse_delta_buffer w in
                   set_mouse_delta_buffer (bx, by_ - dy) w).

Definition lock_mouse_to_center : M unit := emit WarpCursor.

Definition mouse_event_callback (dx dy : Z) : M unit :=
  callback_add_x dx ;;
  callback_sub_y dy ;;
  lock_mouse_to_center.

(** ** [generate_scene] (lines 71-79) *)

Definition scene_t : Type := list (list ascii).

Definition blank_scene (width height : Z) : scene_t :=
  List.map (fun _ => List.map (fun _ => " "%char) (Py.range width))
           (Py.range height).

(** [scene[10][i] = "#"] *)
Definition put_hash (scene : scene_t) (i : Z) : result scene_t :=
  match Py.getitem scene 10 with
  | Raise e => Raise e
  | Ok row =>
      match Py.setitem row i "#"%char with
      | Raise e => Raise e
      | Ok row' => Py.setitem scene 10 row'
      end
  end.

Fixpoint put_hashes (scene : scene_t) (cols : list Z) : result scene_t :=
  match cols with
  | [] => Ok scene
  | i :: t =>
      match put_hash scene i with
      | Raise e => Raise e
      | Ok scene' => put_hashes scene' t
      end
  end.

Definition generate_scene (width height : Z) : result scene_t :=
  put_hashes (blank_scene width height) (Py.range2 5 15).

(** ** The viewport window of one scene row (lines 114-120) *)

(** Line 116: the window lies inside the row. *)
Definition window_contiguous (visible_start_x visible_end_x : Z)
           (scene_row : list ascii) : string :=
  Py.join (Py.slice scene_row visible_start_x visible_end_x).

(** Lines 118-120: the window runs over the right edge of the row. *)
Definition window_wrapped (scene_width visible_start_x visible_end_x : Z)
           (scene_row : list ascii) : string :=
  let part1 := Py.slice scene_row visible_start_x scene_width in
  let part2 := Py.slice scene_row 0 (visible_end_x - scene_width) in
  Py.join (part1 ++ part2).

Definition window_line (scene_width max_x visible_start_x : Z)
           (scene_row : list ascii) : string :=
  let visible_end_x := visible_start_x + max_x in
  if visible_end_x <? scene_width then
    window_contiguous visible_start_x visible_end_x scene_row
  else
    window_wrapped scene_width visible_start_x visible_end_x scene_row.

(** Lines 109-110: [int(offset) % size]. *)
Definition visible_start (offset : float) (size : Z) : result Z :=
  match Py.int_of_float offset with
  | Raise e => Raise e
  | Ok i => Py.mod_ i size
  end.

(** ** [render_scene] (lines 82-140) *)

Section Renderer.

(** Whether a write to the display raises [curses.error], given the
    calls the display has received before it. *)
Variable faults : list call -> call -> bool.

Definition display_write (c : call) : M unit :=
  fun w =>
    let w' := record_call c w in
    if faults (calls w) c then (Raise CursesError, w') else (Ok tt, w').

Definition addstr (y x : Z) (s : string) : M unit := display_write (AddStr y x s).
Definition addch (y x : Z) (c : ascii) : M unit := display_write (AddCh y x c).

(** Line 101: [dx, dy = mouse_delta_buffer[0], mouse_delta_buffer[1]]. *)
Definition read_deltas : M (Z * Z) := get mouse_delta_buffer.

(** Line 102: [mouse_delta_buffer = [0, 0]]. *)
Definition reset_deltas : M unit := modify (set_mouse_delta_buffer (0, 0)).

(** Lines 105-106. *)
Definition advance (dx dy : Z) : M unit :=
  fx <- lift (Py.float_of_int dx) ;;
  modify (fun w => set_scene_offset (scene_offset w - fx * SCROLL_SPEED)%float w) ;;
  fy <- lift (Py.float_of_int dy) ;;
  modify (fun w => set_vertical_offset (vertical_offset w + fy * SCROLL_SPEED)%float w).

(** Lines 100-106: the buffered deltas are taken and the offsets moved. *)
Definition update_camera : M unit :=
  d <- read_deltas ;;
  reset_deltas ;;
  advance (fst d) (snd d).

Section Frame.
Variables (max_y max_x scene_width scene_height : Z) (scene : scene_t).

(** Lines 113-126: the body of [for row in range(max_y)]. *)
Definition draw_row (visible_start_x visible_start_y row : Z) : M unit :=
  actual_y <- lift (Py.mod_ (visible_start_y + row) scene_height) ;;
  scene_row <- lift (Py.getitem scene actual_y) ;;
  let line := window_line scene_width max_x visible_start_x scene_row in
  try_except_curses (addstr row 0 (Py.str_slice line 0 max_x)).

(** Lines 129-134. *)
Definition draw_crosshair : M unit :=
  let crosshair_row := max_y / 2 in
  let crosshair_col := max_x / 2 in
  try_except_curses (addch crosshair_row crosshair_col "+"%char).

(** Lines 108-134: the anchor of the window, the rows, the crosshair. *)
Definition draw : M unit :=
  visible_start_x <- (o <- get scene_offset ;; lift (visible_start o scene_width)) ;;
  visible_start_y <- (o <- get vertical_offset ;; lift (visible_start o scene_height)) ;;
  for_each (Py.range max_y) (draw_row visible_start_x visible_start_y) ;;
  draw_crosshair.

(** Lines 97-140: one iteration of [while True]. *)
Definition frame : M unit :=
  emit Clear ;;
  update_camera ;;
  draw ;;
  emit HideCursor ;;
  emit Refresh.

(** The loop [while True], observed for as many iterations as [events]
    has entries: entry [k] lists the mouse-moved events whose callback
    runs before iteration [k].  An exception ends the loop. *)
Fixpoint render_loop (events : list (list (Z * Z))) : M unit :=
  match events with
  | [] => ret tt
  | evs :: rest =>
      for_each evs (fun d => mouse_event_callback (fst d) (snd d)) ;;
      frame ;;
      render_loop rest
  end.
End Frame.

(** [render_scene] on a terminal for which [getmaxyx] returns [max_y] rows
    and [max_x] columns. *)
Definition render_scene (max_y max_x : Z) (events : list (list (Z * Z))) : M unit :=
  emit (CursSet 0) ;;
  emit (NoDelay true) ;;
  let scene_width := max_x * SCENE_WIDTH_MULTIPLIER in
  let scene_height := max_y * SCENE_HEIGHT_MULTIPLIER in
  scene <- lift (generate_scene scene_width scene_height) ;;
  render_loop max_y max_x scene_width scene_height scene events.

End Renderer.

Definition no_faults : list call -> call -> bool := fun _ _ => false.

(** ** Interleavings of the two threads on the motion buffer

    The render thread drains the buffer with the two statements of lines
    101 and 102; the event-tap thread adds a sample with the two
    statements of lines 36 and 37.  Nothing in [main.py] locks the
    buffer, so a schedule is any merge of the two statement sequences. *)

Module Sampler.

Inductive stmt : Type :=
| RenderRead
| RenderReset
| CallbackAddX (dx : Z)
| CallbackSubY (dy : Z).

(** The buffer together with the two running totals of the accumulation
    property: what the render loop has taken out of the buffer (the
    [dx, dy] of line 101, which lines 105-106 then use) and what the
    events have put in ([dx] and the negated [dy]). *)
Record ledger : Type := mkLedger {
  shared : world;
  consumed : Z * Z;
  applied : Z * Z
}.

Definition start : ledger := mkLedger initial_world (0, 0) (0, 0).

Definition add2 (a b : Z * Z) : Z * Z := (fst a + fst b, snd a + snd b).

Definition exec (s : stmt) (l : ledger) : ledger :=
  match s with
  | RenderRead =>
      match read_deltas (shared l) with
      | (Ok d, w) => mkLedger w (add2 (consumed l) d) (applied l)
      | (Raise _, w) => mkLedger w (consumed l) (applied l)
      end
  | RenderReset =>
      mkLedger (snd (reset_deltas (shared l))) (consumed l) (applied l)
  | CallbackAddX dx =>
      mkLedger (snd (callback_add_x dx (shared l))) (consumed l)
               (add2 (applied l) (dx, 0))
  | CallbackSubY dy =>
      mkLedger (snd (callback_sub_y dy (shared l))) (consumed l)
               (add2 (applied l) (0, - dy))
  end.

Definition run (sched : list stmt) (l : ledger) : ledger :=
  fold_left (fun acc s => exec s acc) sched l.

(** The statements of each thread, in the order the schedule runs them. *)
Definition of_render (s : stmt) : bool :=
  match s with RenderRead | RenderReset => true | _ => false end.

(** The render thread alternates line 101 and line 102. *)
Fixpoint render_order (expect_read : bool) (l : list stmt) : bool :=
  match l with
  | [] => true
  | RenderRead :: t => expect_read && render_order false t
  | RenderReset :: t => negb expect_read && render_order true t
  | _ :: t => false
  end.

(** The callback runs line 36 and then line 37, once per event. *)
Fixpoint callback_order (pending_y : bool) (l : list stmt) : bool :=
  match l with
  | [] => true
  | CallbackAddX _ :: t => negb pending_y && callback_order true t
  | CallbackSubY _ :: t => pending_y && callback_order false t
  | _ :: t => false
  end.

(** A schedule keeps each thread's program order. *)
Definition program_order (sched : list stmt) : bool :=
  render_order true (filter of_render sched)
  && callback_order false (filter (fun s => negb (of_render s)) sched).

(** What is still in the buffer must be counted with what was consumed:
    the next drain takes it. *)
Definition accounted (l : ledger) : Z * Z :=
  add2 (consumed l) (mouse_delta_buffer (shared l)).

(** Calls that are not interleaved with one another. *)
Inductive op : Type :=
| Accumulate (dx dy : Z)
| Drain.

Definition stmts_of (o : op) : list stmt :=
  match o with
  | Accumulate dx dy => [CallbackAddX dx; CallbackSubY dy]
  | Drain => [RenderRead; RenderReset]
  end.

Definition serial (ops : list op) : list stmt := flat_map stmts_of ops.

(** A schedule of the two threads in which one event arrives between
    line 101 and line 102 of a drain, followed by one more drain. *)
Definition lost_update : list stmt :=
  [RenderRead; CallbackAddX 3; CallbackSubY (-2); RenderReset;
   RenderRead; RenderReset].

End Sampler.

(** ** The same two threads, step by step

    A thread switch can also fall inside a source line.  Line 36,
    [mouse_delta_buffer[0] += dx], looks up the list that the global names
    and reads its first item, and later stores the sum into that same list
    object; line 101 reads the two items one after the other; line 102
    binds the global to a new list and leaves the old one as it is.  The
    heap holds the list objects; a list is the pair of its two items.

    Operations that no step of the other thread can tell apart are one
    step here: the render thread alone rebinds the global and never writes
    an item, so the callback's lookup of the global and its read of the
    item are the step [LoadX] (or [LoadY]); the callback alone writes
    items and never rebinds, so each read of line 101 with its lookup is
    one step, and so is the building and binding of the new list. *)

Module Steps.

Inductive step : Type :=
| ReadX
| ReadY
| Rebind
| LoadX
| StoreX (dx : Z)
| LoadY
| StoreY (dy : Z).

Record machine : Type := mkMachine {
  heap : list (Z * Z);
  buffer_ref : nat;
  render_dx : Z;
  render_dy : Z;
  callback_ref : nat;
  callback_item : Z;
  consumed : Z * Z;
  applied : Z * Z
}.

(** One list [[0, 0]], named by the global. *)
Definition start : machine := mkMachine [(0, 0)] 0 0 0 0 0 (0, 0) (0, 0).

Definition deref (h : list (Z * Z)) (r : nat) : Z * Z := nth r h (0, 0).

Definition exec (s : step) (m : machine) : machine :=
  match s with
  | ReadX =>
      (* line 101, [mouse_delta_buffer[0]] *)
      mkMachine (heap m) (buffer_ref m)
                (fst (deref (heap m) (buffer_ref m))) (render_dy m)
                (callback_ref m) (callback_item m) (consumed m) (applied m)
  | ReadY =>
      (* line 101, [mouse_delta_buffer[1]] *)
      mkMachine (heap m) (buffer_ref m)
                (render_dx m) (snd (deref (heap m) (buffer_ref m)))
                (callback_ref m) (callback_item m) (consumed m) (applied m)
  | Rebind =>
      (* line 102; the [dx, dy] read are what lines 105-106 consume *)
      mkMachine (heap m ++ [(0, 0)]) (List.length (heap m))
                (render_dx m) (render_dy m)
                (callback_ref m) (callback_item m)
                (fst (consumed m) + render_dx m, snd (consumed m) + render_dy m)
                (applied m)
  | LoadX =>
      (* line 36: the list and its item 0 are put on the stack *)
      mkMachine (heap m) (buffer_ref m) (render_dx m) (render_dy m)
                (buffer_ref m) (fst (deref (heap m) (buffer_ref m)))
                (consumed m) (applied m)
  | StoreX dx =>
      (* line 36: the sum is stored into the list on the stack *)
      mkMachine (Py.set_nth (heap m) (callback_ref m)
                            (callback_item m + dx,
                             snd (deref (heap m) (callback_ref m))))
                (buffer_ref m) (render_dx m) (render_dy m)
                (callback_ref m) (callback_item m)
                (consumed m) (fst (applied m) + dx, snd (applied m))
  | LoadY =>
      (* line 37: the list and its item 1 are put on the stack *)
      mkMachine (heap m) (buffer_ref m) (render_dx m) (render_dy m)
                (buffer_ref m) (snd (deref (heap m) (buffer_ref m)))
                (consumed m) (applied m)
  | StoreY dy =>
      (* line 37: the difference is stored into the list on the stack *)
      mkMachine (Py.set_nth (heap m) (callback_ref m)
                            (fst (deref (heap m) (callback_ref m)),
                             callback_item m - dy))
                (buffer_ref m) (render_dx m) (render_dy m)
                (callback_ref m) (callback_item m)
                (consumed m) (fst (applied m), snd (applied m) - dy)
  end.

Definition run (sched : list step) (m : machine) : machine :=
  fold_left (fun acc s => exec s acc) sched m.

(** What the drains have consumed together with what the list that the
    global names still holds. *)
Definition accounted (m : machine) : Z * Z :=
  (fst (consumed m) + fst (deref (heap m) (buffer_ref m)),
   snd (consumed m) + snd (deref (heap m) (buffer_ref m))).

(** The schedule never switches threads inside a drain (lines 101-102) nor
    between the load and the store of line 36 or of line 37; it may switch
    anywhere else, also between line 36 and line 37. *)
Fixpoint sections_unbroken (sched : list step) : bool :=
  match sched with
  | [] => true
  | ReadX :: ReadY :: Rebind :: rest => sections_unbroken rest
  | LoadX :: StoreX _ :: rest => sections_unbroken rest
  | LoadY :: StoreY _ :: rest => sections_unbroken rest
  | _ => false
  end.

(** A drain between the load and the store of line 36. *)
Definition drain_inside_line_36 : list step :=
  [LoadX; ReadX; ReadY; Rebind; StoreX 3; LoadY; StoreY (-2);
   ReadX; ReadY; Rebind].

(** An event between the reads of line 101 and line 102. *)
Definition event_inside_drain : list step :=
  [ReadX; ReadY; LoadX; StoreX 3; LoadY; StoreY (-2); Rebind;
   ReadX; ReadY; Rebind].

End Steps.

(** ** Start-up (lines 44-68 and 150-159) *)

(** [start_mouse_listener]; [event_tap] is what [CGEventTapCreate] returned,
    [None] when the tap could not be created.  On success the function
    enters [CFRunLoopRun], which delivers events until the process ends. *)
Definition start_mouse_listener (event_tap : option unit) : M unit :=
  emit DetachCursor ;;
  emit HideCursor ;;
  match event_tap with
  | None => lift (Raise (Exception "Unable to create event tap."))
  | Some _ => ret tt
  end.

Inductive thread : Type :=
| Alive
| Dead (uncaught : exn).

(** [threading.Thread(target=..., daemon=True).start()]: an exception that
    leaves the target ends that thread alone; [threading] reports it on
    standard error and the starting thread goes on. *)
Definition thread_start (target : M unit) (w : world) : thread * world :=
  match target w with
  | (Ok _, w') => (Alive, w')
  | (Raise e, w') => (Dead e, w')
  end.

Record process : Type := mkProcess {
  mouse_listener_thread : thread;
  main_thread : result unit;
  globals : world
}.

(** Lines 154-159.  Mouse events reach the callback only while the listener
    thread is alive; [curses.wrapper(render_scene)] runs on the main thread
    whatever became of the listener.  The thread of lines 143-152 repeats
    the cursor-hiding call and touches nothing else; it is left out. *)
Definition main (faults : list call -> call -> bool) (event_tap : option unit)
           (max_y max_x : Z) (events : list (list (Z * Z))) : process :=
  let (listener, w) := thread_start (start_mouse_listener event_tap) initial_world in
  let delivered :=
    match listener with
    | Alive => events
    | Dead _ => List.map (fun _ => []) events
    end in
  let (r, w') := render_scene faults max_y max_x delivered w in
  mkProcess listener r w'.

(** * Vocabulary of the properties *)

(** The state after the display has received the calls [cs]. *)
Definition record_calls (cs : list call) (w : world) : world :=
  mkWorld (scene_offset w) (vertical_offset w) (mouse_delta_buffer w)
          (calls w ++ cs).

(** [m] never ends in [curses.error]. *)
Definition curses_free {A} (m : M A) : Prop :=
  forall w, is_curses_error (fst (m w)) = false.

(** [m] leaves the part [proj] of the state as it was. *)
Definition keeps {A S} (proj : world -> S) (m : M A) : Prop :=
  forall w, proj (snd (m w)) = proj w.

(** The stored camera offsets. *)
Definition camera (w : world) : float * float := (scene_offset w, vertical_offset w).

(** A call that writes a row of text from column 0. *)
Definition is_addstr (c : call) : Prop := exists y s, c = AddStr y 0 s.

(** The text written for viewport row [r]. *)
Definition row_text (max_x scene_width scene_height : Z) (scene : scene_t)
           (visible_start_x visible_start_y r : Z) : string :=
  let actual_y := (visible_start_y + r) mod scene_height in
  let scene_row := nth (Z.to_nat actual_y) scene [] in
  Py.str_slice (window_line scene_width max_x visible_start_x scene_row) 0 max_x.

Definition row_calls (max_x scene_width scene_height : Z) (scene : scene_t)
           (visible_start_x visible_start_y : Z) (rs : list Z) : list call :=
  List.map (fun r => AddStr r 0 (row_text max_x scene_width scene_height scene
                                          visible_start_x visible_start_y r)) rs.

(** The calls of one completed frame whose window is anchored at
    [(sx, sy)]. *)
Definition frame_calls (max_y max_x scene_width scene_height : Z) (scene : scene_t)
           (sx sy : Z) : list call :=
  Clear :: row_calls max_x scene_width scene_height scene sx sy (Py.range max_y)
  ++ [AddCh (max_y / 2) (max_x / 2) "+"%char; HideCursor; Refresh].

(** What [put_hash] needs and keeps: the scene has [height] rows and row
    10 has [width] cells. *)
Definition scene_shape (width height : Z) (scene : scene_t) : Prop :=
  Py.len scene = height /\ Py.len (nth 10 scene []) = width.


(** The scene is a rectangle of [height] rows of [width] cells. *)
Definition scene_rect (width height : Z) (scene : scene_t) : Prop :=
  Py.len scene = height /\ Forall (fun row => Py.len row = width) scene.

(** The cell of the scene at row [y] and column [x], when there is one. *)
Definition cell (scene : scene_t) (y x : Z) : option ascii :=
  match nth_error scene (Z.to_nat y) with
  | Some row => nth_error row (Z.to_nat x)
  | None => None
  end.

(** What [generate_scene] puts in the cell at row [y] and column [x]. *)
Definition scene_char (y x : Z) : ascii :=
  if (y =? 10) && (5 <=? x) && (x <? 15) then "#"%char else " "%char.

(** The exceptions of the float conversions [float(n)] and [int(x)]. *)
Definition float_exn (e : exn) : bool :=
  match e with
  | OverflowError | ValueError => true
  | _ => false
  end.

(** A result that is a completion or a float exception. *)
Definition float_outcome {A} (r : result A) : Prop :=
  match r with
  | Ok _ => True
  | Raise e => float_exn e = true
  end.

(** The motion of a list of mouse-moved events, summed per axis. *)
Definition total_dx (evs : list (Z * Z)) : Z := fold_right Z.add 0 (List.map fst evs).
Definition total_dy (evs : list (Z * Z)) : Z := fold_right Z.add 0 (List.map snd evs).

(** ** Sample data *)

(** A scene row of width 10 whose cells name their column. *)
Definition demo_row : list ascii :=
  list_ascii_of_string "0123456789".

(** The scene of a terminal of 11 rows and 4 columns. *)
Definition demo_scene : scene_t :=
  Eval vm_compute in
    match generate_scene 16 33 with Ok s => s | Raise _ => [] end.

(** A camera away from the origin with motion in the buffer. *)
Definition demo_world : world :=
  mkWorld 100.5%float (-3)%float (7, -2) [].

(** A camera that looks at the left end of the object of the scene. *)
Definition aim_world : world :=
  mkWorld 3.5%float 0%float (0, 0) [].




(** * Properties *)

(** ** Sequences *)

Section SeqFacts.
Context {A : Type}.
Implicit Types l : list A.

Lemma len_nonneg l : 0 <= Py.len l.
Proof. unfold Py.len. lia. Qed.

Lemma clamp_nonneg l i : 0 <= i -> Py.clamp l i = Z.min i (Py.len l).
Proof.
  intros Hi. unfold Py.clamp.
  destruct (Z.ltb_spec i 0); [lia | reflexivity].
Qed.

Lemma clamp_range l i : 0 <= Py.clamp l i <= Py.len l.
Proof.
  pose proof (len_nonneg l). unfold Py.clamp.
  destruct (Z.ltb_spec i 0); lia.
Qed.

Lemma slice_empty l a : Py.slice l a a = [].
Proof. unfold Py.slice. now rewrite Z.sub_diag. Qed.

Lemma len_slice l a b :
  Py.len (Py.slice l a b) = Z.max 0 (Py.clamp l b - Py.clamp l a).
Proof.
  pose proof (clamp_range l a). pose proof (clamp_range l b).
  unfold Py.slice, Py.len in *.
  rewrite length_firstn, length_skipn. lia.
Qed.

Lemma len_app l1 l2 : Py.len (l1 ++ l2) = Py.len l1 + Py.len l2.
Proof. unfold Py.len. rewrite length_app. lia. Qed.

(** Element [i] of [l[a:b]] is element [a + i] of [l], for bounds inside
    the list. *)
Lemma nth_error_slice l a b i :
  0 <= a <= b -> b <= Py.len l -> 0 <= i < b - a ->
  nth_error (Py.slice l a b) (Z.to_nat i) = nth_error l (Z.to_nat (a + i)).
Proof.
  intros Hab Hb Hi. unfold Py.slice.
  rewrite !clamp_nonneg by lia. rewrite !Z.min_l by lia.
  rewrite nth_error_firstn, nth_error_skipn.
  destruct (Nat.ltb_spec (Z.to_nat i) (Z.to_nat (b - a))); [|lia].
  f_equal. lia.
Qed.

Lemma getitem_in_range l i (d : A) :
  0 <= i < Py.len l -> Py.getitem l i = Ok (nth (Z.to_nat i) l d).
Proof.
  intros Hi. unfold Py.getitem, Py.len in *.
  destruct (Z.ltb_spec i 0); [lia|].
  destruct (Z.ltb_spec i 0); [lia|].
  destruct (Z.leb_spec (Z.of_nat (List.length l)) i); [lia|]. simpl.
  rewrite (nth_error_nth' l d) by lia. reflexivity.
Qed.
End SeqFacts.

Lemma length_join cs : Z.of_nat (String.length (Py.join cs)) = Py.len cs.
Proof.
  unfold Py.join, Py.len. f_equal.
  induction cs as [|c cs IH]; simpl; [reflexivity | now rewrite IH].
Qed.

(** ** The window of one row *)

(** The number of characters of the window the code extracts from a row of
    [scene_width] characters: the two slices of lines 118-119 hold at most
    the rest of the row and one more copy of it. *)
Lemma window_line_length scene_width max_x visible_start_x scene_row :
  Py.len scene_row = scene_width ->
  0 <= visible_start_x < scene_width ->
  0 <= max_x ->
  Z.of_nat (String.length (window_line scene_width max_x visible_start_x scene_row))
  = Z.min max_x (2 * scene_width - visible_start_x).
Proof.
  intros Hlen Hx Hw. unfold window_line.
  destruct (Z.ltb_spec (visible_start_x + max_x) scene_width) as [Hlt|Hge].
  - unfold window_contiguous. rewrite length_join, len_slice.
    rewrite !clamp_nonneg by lia. lia.
  - unfold window_wrapped. rewrite length_join, len_app, !len_slice.
    rewrite !clamp_nonneg by lia. lia.
Qed.

(** Character [i] of the window is the character of the row at column
    [(visible_start_x + i) mod scene_width]: the row is read circularly,
    over the right edge at most once. *)
Lemma window_line_nth scene_width max_x visible_start_x scene_row i :
  Py.len scene_row = scene_width ->
  0 <= visible_start_x < scene_width ->
  0 <= i < Z.min max_x (2 * scene_width - visible_start_x) ->
  nth_error
    (list_ascii_of_string (window_line scene_width max_x visible_start_x scene_row))
    (Z.to_nat i)
  = nth_error scene_row (Z.to_nat ((visible_start_x + i) mod scene_width)).
Proof.
  intros Hlen Hx Hi. unfold window_line.
  destruct (Z.ltb_spec (visible_start_x + max_x) scene_width) as [Hlt|Hge].
  - unfold window_contiguous, Py.join.
    rewrite list_ascii_of_string_of_list_ascii.
    rewrite nth_error_slice by lia.
    now rewrite Z.mod_small by lia.
  - unfold window_wrapped, Py.join.
    rewrite list_ascii_of_string_of_list_ascii.
    pose proof (len_slice scene_row visible_start_x scene_width) as Hl1.
    rewrite !clamp_nonneg, Hlen in Hl1 by lia. unfold Py.len in Hl1.
    rewrite nth_error_app.
    set (n1 := List.length (Py.slice scene_row visible_start_x scene_width)) in *.
    destruct (Nat.ltb_spec (Z.to_nat i) n1).
    + rewrite nth_error_slice by lia.
      now rewrite Z.mod_small by lia.
    + replace (Z.to_nat i - n1)%nat
        with (Z.to_nat (i - (scene_width - visible_start_x))) by lia.
      destruct (Z.ltb_spec (visible_start_x + max_x - scene_width) scene_width).
      * rewrite nth_error_slice by lia.
        f_equal. f_equal.
        replace (visible_start_x + i)
          with (0 + (i - (scene_width - visible_start_x)) + 1 * scene_width) by lia.
        rewrite Z.mod_add by lia. now rewrite Z.mod_small by lia.
      * unfold Py.slice. rewrite !clamp_nonneg by lia.
        rewrite (Z.min_l 0), (Z.min_r _ (Py.len scene_row)) by lia.
        rewrite nth_error_firstn, nth_error_skipn.
        destruct (Nat.ltb_spec (Z.to_nat (i - (scene_width - visible_start_x)))
                    (Z.to_nat (Py.len scene_row - 0))); [|lia].
        f_equal.
        replace (visible_start_x + i)
          with ((i - (scene_width - visible_start_x)) + 1 * scene_width) by lia.
        rewrite Z.mod_add by lia. rewrite Z.mod_small by lia. lia.
Qed.

(** C10: when the window ends exactly at the right edge of the row
    ([visible_start_x + max_x = scene_width]) the strict comparison of line
    115 sends the code into the wrapping branch, whose second slice is the
    empty [row[0:0]]; the line it builds is the one the contiguous branch
    would have built. *)
Theorem window_at_right_edge :
  forall scene_width max_x visible_start_x scene_row,
    visible_start_x + max_x = scene_width ->
    window_line scene_width max_x visible_start_x scene_row
    = window_wrapped scene_width visible_start_x (visible_start_x + max_x) scene_row
    /\ Py.slice scene_row 0 (visible_start_x + max_x - scene_width) = []
    /\ window_wrapped scene_width visible_start_x (visible_start_x + max_x) scene_row
       = window_contiguous visible_start_x (visible_start_x + max_x) scene_row.
Proof.
  intros W w sx row Hedge. unfold window_line.
  rewrite (proj2 (Z.ltb_ge _ _)) by lia.
  split; [reflexivity|].
  assert (Hempty : Py.slice row 0 (sx + w - W) = []).
  { replace (sx + w - W) with 0 by lia. apply slice_empty. }
  split; [exact Hempty|].
  unfold window_wrapped, window_contiguous.
  rewrite Hempty, app_nil_r. now rewrite Hedge.
Qed.

Lemma window_at_right_edge_witness :
  7 + 3 = 10
  /\ window_line 10 3 7 demo_row = "789"%string
  /\ window_wrapped 10 7 (7 + 3) demo_row = window_contiguous 7 (7 + 3) demo_row.
Proof.
  split; [reflexivity|].
  destruct (window_at_right_edge 10 3 7 demo_row eq_refl) as (_ & _ & H).
  split; [reflexivity | exact H].
Defined.

(** C6: for a window no wider than the scene, the window taken at the
    anchor of position [p] and the one taken at the anchor of [p + W] (both
    reduced modulo [W] as line 109 does) are the same string. *)
Theorem wrap_idempotence :
  forall scene_width max_x p start_x start_x' scene_row,
    0 < scene_width ->
    max_x <= scene_width ->
    Py.mod_ p scene_width = Ok start_x ->
    Py.mod_ (p + scene_width) scene_width = Ok start_x' ->
    window_line scene_width max_x start_x' scene_row
    = window_line scene_width max_x start_x scene_row.
Proof.
  intros W w p sx sx' row HW _ Hsx Hsx'. unfold Py.mod_ in *.
  destruct (Z.eqb_spec W 0); [lia|].
  injection Hsx as <-. injection Hsx' as <-.
  replace (p + W) with (p + 1 * W) by lia.
  now rewrite Z.mod_add by lia.
Qed.

Lemma wrap_idempotence_witness :
  window_line 10 4 ((8 + 10) mod 10) demo_row = window_line 10 4 8 demo_row
  /\ window_line 10 4 8 demo_row = "8901"%string.
Proof.
  split; [|reflexivity].
  apply (wrap_idempotence 10 4 8 8 ((8 + 10) mod 10) demo_row);
    [lia | lia | reflexivity | reflexivity].
Defined.

(** ** Statements that leave part of the state alone, or never leak a
       display fault *)

Lemma record_call_calls c w : record_call c w = record_calls [c] w.
Proof. reflexivity. Qed.

Lemma record_calls_nil w : record_calls [] w = w.
Proof. destruct w. unfold record_calls. simpl. now rewrite app_nil_r. Qed.

Lemma record_calls_app cs1 cs2 w :
  record_calls cs2 (record_calls cs1 w) = record_calls (cs1 ++ cs2) w.
Proof. unfold record_calls. simpl. now rewrite app_assoc. Qed.

Section Combinators.
Context {A B : Type}.

Lemma curses_free_bind (m : M A) (k : A -> M B) :
  curses_free m -> (forall a, curses_free (k a)) -> curses_free (bind m k).
Proof.
  intros Hm Hk w. specialize (Hm w). unfold bind.
  destruct (m w) as [[a|e] w']; simpl in *; [apply Hk | exact Hm].
Qed.

Lemma keeps_bind {S} (proj : world -> S) (m : M A) (k : A -> M B) :
  keeps proj m -> (forall a, keeps proj (k a)) -> keeps proj (bind m k).
Proof.
  intros Hm Hk w. specialize (Hm w). unfold bind.
  destruct (m w) as [[a|e] w']; simpl in *; [now rewrite Hk | exact Hm].
Qed.

End Combinators.

Lemma curses_free_for_each {A} (l : list A) (body : A -> M unit) :
  (forall a, curses_free (body a)) -> curses_free (for_each l body).
Proof.
  intros Hb. induction l as [|a l IH]; simpl.
  - now intros w.
  - apply curses_free_bind; [apply Hb | intros _; exact IH].
Qed.

Lemma keeps_for_each {A S} (proj : world -> S) (l : list A) (body : A -> M unit) :
  (forall a, keeps proj (body a)) -> keeps proj (for_each l body).
Proof.
  intros Hb. induction l as [|a l IH]; simpl.
  - now intros w.
  - apply keeps_bind; [apply Hb | intros _; exact IH].
Qed.

Lemma curses_free_try m : curses_free (try_except_curses m).
Proof.
  intros w. unfold try_except_curses.
  destruct (m w) as [[[]|e] w']; simpl; try reflexivity.
  destruct e; reflexivity.
Qed.

Lemma keeps_try {S} (proj : world -> S) m :
  keeps proj m -> keeps proj (try_except_curses m).
Proof.
  intros Hm w. specialize (Hm w). unfold try_except_curses.
  destruct (m w) as [[[]|e] w']; simpl in *; try exact Hm.
  destruct e; exact Hm.
Qed.

Lemma curses_free_lift {A} (r : result A) :
  is_curses_error r = false -> curses_free (lift r).
Proof. intros Hr w. exact Hr. Qed.

Lemma keeps_lift {A S} (proj : world -> S) (r : result A) : keeps proj (lift r).
Proof. now intros w. Qed.

Lemma curses_free_get {A} (proj : world -> A) : curses_free (get proj).
Proof. now intros w. Qed.

Lemma keeps_get {A S} (proj : world -> S) (field : world -> A) : keeps proj (get field).
Proof. now intros w. Qed.

Lemma keeps_modify {S} (proj : world -> S) f :
  (forall w, proj (f w) = proj w) -> keeps proj (modify f).
Proof. intros Hf w. apply Hf. Qed.

Lemma curses_free_modify f : curses_free (modify f).
Proof. now intros w. Qed.

Lemma curses_free_emit c : curses_free (emit c).
Proof. now intros w. Qed.

Lemma keeps_camera_emit c : keeps camera (emit c).
Proof. now intros w. Qed.

Lemma keeps_camera_display_write faults c : keeps camera (display_write faults c).
Proof. intros w. unfold display_write. now destruct (faults (calls w) c). Qed.

(** The Python operations of the frame raise their own exceptions, never
    [curses.error]. *)
Lemma mod_not_curses a b : is_curses_error (Py.mod_ a b) = false.
Proof. unfold Py.mod_. now destruct (b =? 0). Qed.

Lemma getitem_not_curses {A} (l : list A) i : is_curses_error (Py.getitem l i) = false.
Proof.
  unfold Py.getitem.
  destruct (_ || _); [reflexivity|]. now destruct (nth_error _ _).
Qed.

Lemma float_of_int_not_curses n : is_curses_error (Py.float_of_int n) = false.
Proof. unfold Py.float_of_int. now destruct (binary_normalize _ _ _ _ _). Qed.

Lemma int_of_float_not_curses f : is_curses_error (Py.int_of_float f) = false.
Proof.
  unfold Py.int_of_float.
  destruct (Prim2SF f) as [s| s | |s m e]; try reflexivity.
Qed.

Lemma visible_start_not_curses o n : is_curses_error (visible_start o n) = false.
Proof.
  unfold visible_start. pose proof (int_of_float_not_curses o) as H.
  destruct (Py.int_of_float o); [apply mod_not_curses | exact H].
Qed.

Lemma mouse_event_callback_ok dx dy w :
  mouse_event_callback dx dy w
  = (Ok tt,
     mkWorld (scene_offset w) (vertical_offset w)
             (fst (mouse_delta_buffer w) + dx, snd (mouse_delta_buffer w) - dy)
             (calls w ++ [WarpCursor])).
Proof. destruct w as [o v [bx by_] cs]. reflexivity. Qed.

Lemma curses_free_callbacks evs :
  curses_free (for_each evs (fun d => mouse_event_callback (fst d) (snd d))).
Proof.
  apply curses_free_for_each. intros d w. now rewrite mouse_event_callback_ok.
Qed.

Section FrameFacts.
Variable faults : list call -> call -> bool.
Variables (max_y max_x scene_width scene_height : Z) (scene : scene_t).

(** A guarded write always completes and always reaches the display. *)
Lemma guarded_write c w :
  try_except_curses (display_write faults c) w = (Ok tt, record_call c w).
Proof.
  unfold try_except_curses, display_write.
  now destruct (faults (calls w) c).
Qed.

Lemma draw_row_faults sx sy r w :
  draw_row faults max_x scene_width scene_height scene sx sy r w
  = draw_row no_faults max_x scene_width scene_height scene sx sy r w.
Proof.
  unfold draw_row, bind, lift, addstr.
  destruct (Py.mod_ _ _); [|reflexivity].
  destruct (Py.getitem _ _); [|reflexivity].
  now rewrite !guarded_write.
Qed.

Lemma for_each_rows_faults sx sy rs w :
  for_each rs (draw_row faults max_x scene_width scene_height scene sx sy) w
  = for_each rs (draw_row no_faults max_x scene_width scene_height scene sx sy) w.
Proof.
  revert w. induction rs as [|r rs IH]; intros w; simpl; [reflexivity|].
  unfold bind. rewrite draw_row_faults.
  destruct (draw_row no_faults _ _ _ _ _ _ _ _) as [[[]|e] w']; [apply IH | reflexivity].
Qed.

Lemma draw_crosshair_faults w :
  draw_crosshair faults max_y max_x w = draw_crosshair no_faults max_y max_x w.
Proof. unfold draw_crosshair, addch. now rewrite !guarded_write. Qed.

Lemma draw_faults w :
  draw faults max_y max_x scene_width scene_height scene w
  = draw no_faults max_y max_x scene_width scene_height scene w.
Proof.
  unfold draw, bind, get, lift.
  destruct (visible_start (scene_offset w) _); [|reflexivity].
  destruct (visible_start (vertical_offset w) _); [|reflexivity].
  rewrite for_each_rows_faults.
  destruct (for_each _ _ _) as [[[]|?] ?]; [|reflexivity].
  apply draw_crosshair_faults.
Qed.

Lemma frame_faults w :
  frame faults max_y max_x scene_width scene_height scene w
  = frame no_faults max_y max_x scene_width scene_height scene w.
Proof.
  unfold frame, bind.
  destruct (emit Clear w) as [[[]|?] w0]; [|reflexivity].
  destruct (update_camera w0) as [[[]|?] w1]; [|reflexivity].
  now rewrite draw_faults.
Qed.

Lemma render_loop_faults events w :
  render_loop faults max_y max_x scene_width scene_height scene events w
  = render_loop no_faults max_y max_x scene_width scene_height scene events w.
Proof.
  revert w. induction events as [|evs rest IH]; intros w; simpl; [reflexivity|].
  unfold bind. destruct (for_each evs _ w) as [[[]|e] w1]; [|reflexivity].
  rewrite frame_faults.
  destruct (frame no_faults _ _ _ _ _ _) as [[[]|e] w2]; [apply IH | reflexivity].
Qed.

Lemma curses_free_draw_row sx sy r :
  curses_free (draw_row faults max_x scene_width scene_height scene sx sy r).
Proof.
  unfold draw_row.
  apply curses_free_bind; [apply curses_free_lift, mod_not_curses | intros ay].
  apply curses_free_bind; [apply curses_free_lift, getitem_not_curses | intros row].
  apply curses_free_try.
Qed.

Lemma curses_free_advance dx dy : curses_free (advance dx dy).
Proof.
  unfold advance.
  apply curses_free_bind; [apply curses_free_lift, float_of_int_not_curses | intros fx].
  apply curses_free_bind; [apply curses_free_modify | intros _].
  apply curses_free_bind; [apply curses_free_lift, float_of_int_not_curses | intros fy].
  apply curses_free_modify.
Qed.

Lemma curses_free_update_camera : curses_free update_camera.
Proof.
  unfold update_camera.
  apply curses_free_bind; [apply curses_free_get | intros d].
  apply curses_free_bind; [apply curses_free_modify | intros _].
  apply curses_free_advance.
Qed.

Lemma curses_free_draw :
  curses_free (draw faults max_y max_x scene_width scene_height scene).
Proof.
  unfold draw.
  apply curses_free_bind.
  { apply curses_free_bind; [apply curses_free_get | intros o].
    apply curses_free_lift, visible_start_not_curses. }
  intros sx. apply curses_free_bind.
  { apply curses_free_bind; [apply curses_free_get | intros o].
    apply curses_free_lift, visible_start_not_curses. }
  intros sy.
  apply curses_free_bind;
    [apply curses_free_for_each; intros r; apply curses_free_draw_row | intros _].
  apply curses_free_try.
Qed.

Lemma curses_free_frame :
  curses_free (frame faults max_y max_x scene_width scene_height scene).
Proof.
  unfold frame.
  apply curses_free_bind; [apply curses_free_emit | intros _].
  apply curses_free_bind; [apply curses_free_update_camera | intros _].
  apply curses_free_bind; [apply curses_free_draw | intros _].
  apply curses_free_bind; [apply curses_free_emit | intros _].
  apply curses_free_emit.
Qed.

(** Drawing reads the stored offsets and never writes them. *)
Lemma keeps_camera_draw :
  keeps camera (draw faults max_y max_x scene_width scene_height scene).
Proof.
  unfold draw.
  apply keeps_bind.
  { apply keeps_bind; [apply keeps_get | intros o; apply keeps_lift]. }
  intros sx. apply keeps_bind.
  { apply keeps_bind; [apply keeps_get | intros o; apply keeps_lift]. }
  intros sy. apply keeps_bind.
  { apply keeps_for_each. intros r. unfold draw_row.
    apply keeps_bind; [apply keeps_lift | intros ay].
    apply keeps_bind; [apply keeps_lift | intros row].
    apply keeps_try, keeps_camera_display_write. }
  intros _. apply keeps_try, keeps_camera_display_write.
Qed.

Lemma curses_free_render_loop events :
  curses_free (render_loop faults max_y max_x scene_width scene_height scene events).
Proof.
  induction events as [|evs rest IH]; simpl; [now intros w|].
  apply curses_free_bind; [apply curses_free_callbacks | intros _].
  apply curses_free_bind; [apply curses_free_frame | intros _; exact IH].
Qed.
End FrameFacts.

(** ** The frame *)

Section FrameProperties.
Variable faults : list call -> call -> bool.
Variables (max_y max_x scene_width scene_height : Z) (scene : scene_t).

Lemma update_camera_ok w fx fy :
  Py.float_of_int (fst (mouse_delta_buffer w)) = Ok fx ->
  Py.float_of_int (snd (mouse_delta_buffer w)) = Ok fy ->
  update_camera w
  = (Ok tt,
     mkWorld (scene_offset w - fx * SCROLL_SPEED)%float
             (vertical_offset w + fy * SCROLL_SPEED)%float
             (0, 0) (calls w)).
Proof.
  intros Hx Hy. unfold update_camera, advance, bind, read_deltas, get, lift.
  simpl. rewrite Hx. simpl. now rewrite Hy.
Qed.

Lemma draw_row_inv sx sy r w w' :
  draw_row faults max_x scene_width scene_height scene sx sy r w = (Ok tt, w') ->
  exists s, w' = record_calls [AddStr r 0 s] w.
Proof.
  unfold draw_row, bind, lift, addstr.
  destruct (Py.mod_ _ _); [|discriminate].
  destruct (Py.getitem _ _); [|discriminate].
  rewrite guarded_write. intros [= <-]. eexists. reflexivity.
Qed.

Lemma rows_inv sx sy rs : forall w w',
  for_each rs (draw_row faults max_x scene_width scene_height scene sx sy) w
  = (Ok tt, w') ->
  exists cs, w' = record_calls cs w /\ Forall is_addstr cs
             /\ List.length cs = List.length rs.
Proof.
  induction rs as [|r rs IH]; intros w w'; simpl.
  - intros [= <-]. exists []. now rewrite record_calls_nil.
  - unfold bind.
    destruct (draw_row _ _ _ _ _ _ _ _ _) as [[[]|e] w1] eqn:Hrow; [|discriminate].
    intros Hrest. destruct (draw_row_inv _ _ _ _ _ Hrow) as [s ->].
    destruct (IH _ _ Hrest) as (cs & -> & Hcs & Hlen).
    exists (AddStr r 0 s :: cs). rewrite record_calls_app. simpl.
    repeat split; [|now rewrite Hlen].
    constructor; [now exists r, s | exact Hcs].
Qed.

Lemma keeps_calls_update_camera w w' r :
  update_camera w = (r, w') -> calls w' = calls w.
Proof.
  unfold update_camera, advance, bind, read_deltas, get, reset_deltas, modify, lift.
  simpl. destruct (Py.float_of_int (fst _)); simpl; [|now intros [= _ <-]].
  destruct (Py.float_of_int (snd _)); simpl; now intros [= _ <-].
Qed.

Lemma frame_inv w w' :
  frame faults max_y max_x scene_width scene_height scene w = (Ok tt, w') ->
  exists rows,
    calls w' = calls w ++ Clear :: rows
               ++ [AddCh (max_y / 2) (max_x / 2) "+"%char; HideCursor; Refresh]
    /\ Forall is_addstr rows
    /\ List.length rows = List.length (Py.range max_y).
Proof.
  unfold frame, bind. simpl.
  destruct (update_camera _) as [[[]|e] w1] eqn:Hcam; [|discriminate].
  apply keeps_calls_update_camera in Hcam. simpl in Hcam.
  unfold draw, bind, get, lift.
  destruct (visible_start (scene_offset w1) _) as [sx|]; [|discriminate].
  destruct (visible_start (vertical_offset w1) _) as [sy|]; [|discriminate].
  destruct (for_each _ _ _) as [[[]|e] w2] eqn:Hrows; [|discriminate].
  destruct (rows_inv _ _ _ _ _ Hrows) as (rows & -> & Hall & Hlen).
  unfold draw_crosshair, addch. rewrite guarded_write.
  unfold emit, modify. intros [= <-]. exists rows.
  repeat split; [|exact Hall|exact Hlen].
  simpl. rewrite Hcam, <- !app_assoc. reflexivity.
Qed.
End FrameProperties.

(** C7: in every frame the camera moves by
    [scene_offset -= dx * SCROLL_SPEED] and
    [vertical_offset += dy * SCROLL_SPEED] for the drained [(dx, dy)], with
    [SCROLL_SPEED] the binary64 number nearest to 0.2 (the quotient
    [1 / 5]); what the frame stores is that difference and that sum
    themselves, and the drawing that follows, where the modulo is taken,
    does not write the offsets. *)
Theorem camera_update :
  forall faults max_y max_x scene_width scene_height scene w fx fy,
    Py.float_of_int (fst (mouse_delta_buffer w)) = Ok fx ->
    Py.float_of_int (snd (mouse_delta_buffer w)) = Ok fy ->
    let w' := snd (frame faults max_y max_x scene_width scene_height scene w) in
    scene_offset w' = (scene_offset w - fx * SCROLL_SPEED)%float
    /\ vertical_offset w' = (vertical_offset w + fy * SCROLL_SPEED)%float
    /\ SCROLL_SPEED = (1 / 5)%float
    /\ keeps camera (draw faults max_y max_x scene_width scene_height scene).
Proof.
  intros faults max_y max_x W H scene w fx fy Hx Hy w'.
  assert (Hcam : camera w' = ((scene_offset w - fx * SCROLL_SPEED)%float,
                              (vertical_offset w + fy * SCROLL_SPEED)%float)).
  { subst w'. unfold frame, bind. simpl.
    rewrite (update_camera_ok (record_call Clear w) fx fy Hx Hy).
    match goal with
    | |- context [draw ?f ?a ?b ?c ?d ?e ?x] =>
        pose proof (keeps_camera_draw f a b c d e x) as Hdraw;
        destruct (draw f a b c d e x) as [[[]|e'] w2]
    end; simpl in *; exact Hdraw. }
  injection Hcam as Ho Hv.
  split; [exact Ho|]. split; [exact Hv|].
  split; [now vm_compute | apply keeps_camera_draw].
Qed.

Lemma camera_update_witness :
  let w' := snd (frame no_faults 11 4 16 33 demo_scene demo_world) in
  scene_offset w' = (100.5 - 7 * SCROLL_SPEED)%float
  /\ vertical_offset w' = (-3 + -2 * SCROLL_SPEED)%float.
Proof.
  destruct (camera_update no_faults 11 4 16 33 demo_scene demo_world 7%float (-2)%float
                          eq_refl eq_refl) as (Ho & Hv & _).
  split; [exact Ho | exact Hv].
Defined.

(** C8: whatever the camera offsets and the buffered motion, a frame that
    completes has drawn the crosshair once, at row [max_y / 2] and column
    [max_x / 2] (floor division), after the rows of the window. *)
Theorem crosshair_fixed :
  forall faults max_y max_x scene_width scene_height scene w w',
    frame faults max_y max_x scene_width scene_height scene w = (Ok tt, w') ->
    exists rows,
      calls w' = calls w ++ Clear :: rows
                 ++ [AddCh (max_y / 2) (max_x / 2) "+"%char; HideCursor; Refresh]
      /\ Forall is_addstr rows.
Proof.
  intros faults max_y max_x W H scene w w' Hframe.
  destruct (frame_inv _ _ _ _ _ _ _ _ Hframe) as (rows & Hcalls & Hall & _).
  exists rows. split; assumption.
Qed.

Lemma crosshair_fixed_witness :
  exists rows,
    calls (snd (frame no_faults 11 4 16 33 demo_scene demo_world))
    = Clear :: rows ++ [AddCh 5 2 "+"%char; HideCursor; Refresh]
    /\ Forall is_addstr rows.
Proof.
  apply (crosshair_fixed no_faults 11 4 16 33 demo_scene demo_world).
  reflexivity.
Defined.

(** C9: a write that the display refuses is caught where it happens: the
    guarded write completes and the call has reached the display; the loop
    runs exactly as it does on a display that refuses nothing, and no
    iteration ends in [curses.error]. *)
Theorem display_faults_swallowed :
  forall faults max_y max_x scene_width scene_height scene events w,
    (forall c w0,
        try_except_curses (display_write faults c) w0 = (Ok tt, record_call c w0))
    /\ render_loop faults max_y max_x scene_width scene_height scene events w
       = render_loop no_faults max_y max_x scene_width scene_height scene events w
    /\ is_curses_error
         (fst (render_loop faults max_y max_x scene_width scene_height scene events w))
       = false.
Proof.
  intros. split; [|split].
  - apply guarded_write.
  - apply render_loop_faults.
  - apply curses_free_render_loop.
Qed.

(** ** The rows of the window *)

Section Rows.
Variable faults : list call -> call -> bool.
Variables (max_x scene_width scene_height : Z) (scene : scene_t).
Hypothesis scene_rows : Py.len scene = scene_height.
Hypothesis scene_height_pos : 0 < scene_height.

Lemma draw_row_ok sx sy r w :
  draw_row faults max_x scene_width scene_height scene sx sy r w
  = (Ok tt, record_calls (row_calls max_x scene_width scene_height scene sx sy [r]) w).
Proof.
  unfold draw_row, bind, lift, Py.mod_, addstr.
  destruct (Z.eqb_spec scene_height 0); [lia|].
  pose proof (Z.mod_pos_bound (sy + r) scene_height scene_height_pos).
  rewrite (getitem_in_range scene _ []) by lia.
  now rewrite guarded_write.
Qed.

(** Every viewport row is written, whatever their number: the scene row
    is picked modulo the scene height. *)
Lemma rows_ok sx sy rs : forall w,
  for_each rs (draw_row faults max_x scene_width scene_height scene sx sy) w
  = (Ok tt, record_calls (row_calls max_x scene_width scene_height scene sx sy rs) w).
Proof.
  induction rs as [|r rs IH]; intros w; simpl.
  - now rewrite record_calls_nil.
  - unfold bind. rewrite draw_row_ok, IH, record_calls_app. reflexivity.
Qed.
End Rows.

Lemma length_range n : Z.of_nat (List.length (Py.range n)) = Z.max 0 n.
Proof. unfold Py.range. rewrite length_map, length_seq. lia. Qed.

(** The two slices of lines 118-119 hold at most the rest of the row and
    one more copy of it: taken alone, on a row of 10 characters and for a
    width of 12 from column 9, they give 11 characters.  [render_scene]
    never asks this of them: its scene is 4 times as wide as its
    viewport. *)
Example window_wider_than_scene_short :
  window_line 10 12 9 demo_row = "90123456789"%string
  /\ Z.of_nat (String.length (window_line 10 12 9 demo_row)) = 11.
Proof. vm_compute. split; reflexivity. Qed.

(** ** Truncation and floor of a rational *)

Lemma Qtrunc_nonneg q : (0 <= q)%Q -> Py.Qtrunc q = Qfloor q.
Proof.
  destruct q as [n d]. unfold Qle, Py.Qtrunc, Qfloor. simpl. intros Hn.
  apply Z.quot_div_nonneg; lia.
Qed.

Lemma Qtrunc_nonpos q : (q <= 0)%Q -> Py.Qtrunc q = Qceiling q.
Proof.
  destruct q as [n d]. unfold Qle, Py.Qtrunc, Qceiling, Qfloor. simpl. intros Hn.
  replace n with (- - n) at 1 by lia.
  rewrite Z.quot_opp_l by lia. f_equal.
  apply Z.quot_div_nonneg; lia.
Qed.

Lemma Qtrunc_integer q z : (q == inject_Z z)%Q -> Py.Qtrunc q = z.
Proof.
  destruct q as [n d]. unfold Qeq, Py.Qtrunc. simpl. intros Hn.
  replace n with (z * Zpos d) by lia. apply Z.quot_mul. lia.
Qed.

Lemma Qfloor_integer q z : (q == inject_Z z)%Q -> Qfloor q = z.
Proof. intros ->. apply Qfloor_Z. Qed.

Lemma Qtrunc_negative_fraction q :
  (q < 0)%Q -> ~ (q == inject_Z (Qfloor q))%Q -> Py.Qtrunc q = Qfloor q + 1.
Proof.
  intros Hneg Hfrac. rewrite Qtrunc_nonpos by now apply Qlt_le_weak.
  destruct q as [n d]. unfold Qceiling, Qfloor, Qeq in *. simpl in *.
  assert (Hmod : n mod Zpos d <> 0).
  { intros Hm. apply Hfrac.
    pose proof (Z.div_mod n (Zpos d)). lia. }
  rewrite Z.div_opp_l_nz by lia. lia.
Qed.




Lemma int_of_float_value f q :
  Py.value f = Some q -> Py.int_of_float f = Ok (Py.Qtrunc q).
Proof.
  unfold Py.value, Py.int_of_float.
  destruct (Prim2SF f) as [s| s | |s m e]; simpl; try discriminate;
    now intros [= <-].
Qed.

(** ** The anchor of the window *)

Lemma visible_start_value offset size q :
  size <> 0 ->
  Py.value offset = Some q ->
  visible_start offset size = Ok (Py.Qtrunc q mod size).
Proof.
  intros Hn Hq. unfold visible_start. rewrite (int_of_float_value offset q Hq).
  unfold Py.mod_. destruct (Z.eqb_spec size 0); [contradiction | reflexivity].
Qed.

(** C1, as the code has it: the anchor is the offset rounded toward zero by
    [int], reduced by Python's floor modulo.  It lies in [0, size) for a
    positive size.  Rounding toward zero agrees with the floor for offsets
    that are non-negative or whole, and is one more than the floor for the
    other offsets. *)
Theorem visible_start_truncates :
  forall offset size q,
    size <> 0 ->
    Py.value offset = Some q ->
    visible_start offset size = Ok (Py.Qtrunc q mod size)
    /\ (0 < size -> 0 <= Py.Qtrunc q mod size < size)
    /\ ((0 <= q)%Q \/ (q == inject_Z (Qfloor q))%Q -> Py.Qtrunc q = Qfloor q)
    /\ ((q < 0)%Q -> ~ (q == inject_Z (Qfloor q))%Q -> Py.Qtrunc q = Qfloor q + 1).
Proof.
  intros o n q Hn Hq. split; [|split; [|split]].
  - now apply visible_start_value.
  - intros Hpos. now apply Z.mod_pos_bound.
  - intros [Hq0 | Hint].
    + now apply Qtrunc_nonneg.
    + rewrite (Qtrunc_integer q _ Hint). reflexivity.
  - apply Qtrunc_negative_fraction.
Qed.

Lemma visible_start_truncates_witness :
  visible_start (19.5)%float 20 = Ok 19
  /\ visible_start (-19.5)%float 20 = Ok 1.
Proof.
  destruct (visible_start_truncates (19.5)%float 20 _ ltac:(lia) eq_refl) as (Hpos & _).
  destruct (visible_start_truncates (-19.5)%float 20 _ ltac:(lia) eq_refl) as (Hneg & _).
  split; [exact Hpos | exact Hneg].
Defined.

(** C1, as stated, fails: one raw unit of motion to the right from the
    start leaves the offset at [0 - 1 * 0.2], a little below zero; its floor
    is -1, which is 15 modulo 16, and the code's anchor is 0. *)
Lemma visible_start_not_floor :
  let offset := (0 - 1 * SCROLL_SPEED)%float in
  exists q,
    Py.value offset = Some q
    /\ (q < 0)%Q
    /\ Qfloor q mod 16 = 15
    /\ visible_start offset 16 = Ok 0
    /\ visible_start offset 16 <> Ok (Qfloor q mod 16).
Proof.
  eexists. split; [reflexivity|].
  split; [reflexivity|]. split; [reflexivity|]. split; [reflexivity|].
  vm_compute. discriminate.
Qed.

(** ** A full horizontal cycle *)





(** The rounding must not carry the offset across a whole number: from
    the largest float below 1, taken negative, a cycle of a scene 16 wide
    rounds the offset to -17, and the anchor moves from 0 to 15 although
    the offset never was positive. *)
Example rounded_cycle_moves_window :
  let w0 := mkWorld (-0x1.fffffffffffffp-1)%float 0%float (5 * 16, 0) [] in
  let w1 := snd (update_camera w0) in
  scene_offset w1 = (-17)%float
  /\ visible_start (scene_offset w0) 16 = Ok 0
  /\ visible_start (scene_offset w1) 16 = Ok 15.
Proof. vm_compute. repeat split; reflexivity. Qed.


(** ** Frames on a scene as [generate_scene] builds it *)

Section FrameOk.
Variable faults : list call -> call -> bool.
Variables (max_y max_x scene_width scene_height : Z) (scene : scene_t).
Hypothesis scene_rows : Py.len scene = scene_height.
Hypothesis scene_height_pos : 0 < scene_height.

Lemma frame_ok w fx fy sx sy :
  Py.float_of_int (fst (mouse_delta_buffer w)) = Ok fx ->
  Py.float_of_int (snd (mouse_delta_buffer w)) = Ok fy ->
  visible_start (scene_offset w - fx * SCROLL_SPEED)%float scene_width = Ok sx ->
  visible_start (vertical_offset w + fy * SCROLL_SPEED)%float scene_height = Ok sy ->
  frame faults max_y max_x scene_width scene_height scene w
  = (Ok tt,
     mkWorld (scene_offset w - fx * SCROLL_SPEED)%float
             (vertical_offset w + fy * SCROLL_SPEED)%float
             (0, 0) (calls w ++ frame_calls max_y max_x scene_width scene_height scene sx sy)).
Proof.
  intros Hx Hy Hsx Hsy. unfold frame, bind. simpl.
  rewrite (update_camera_ok (record_call Clear w) fx fy Hx Hy).
  unfold draw, bind, get, lift. simpl. rewrite Hsx, Hsy.
  rewrite (rows_ok faults max_x scene_width scene_height scene scene_rows
                   scene_height_pos).
  unfold draw_crosshair, addch. rewrite guarded_write.
  unfold emit, modify, record_call, record_calls, frame_calls. simpl.
  rewrite <- !app_assoc. reflexivity.
Qed.

(** With nothing in the buffer a camera at the origin stays there. *)
Lemma frame_idle w :
  scene_width <> 0 ->
  camera w = (0%float, 0%float) ->
  mouse_delta_buffer w = (0, 0) ->
  frame faults max_y max_x scene_width scene_height scene w
  = (Ok tt, mkWorld 0%float 0%float (0, 0) (calls w ++ frame_calls max_y max_x scene_width scene_height scene 0 0)).
Proof.
  intros HW Hcam Hbuf. injection Hcam as Ho Hv.
  assert (Hstart : forall n, n <> 0 -> visible_start 0%float n = Ok 0).
  { intros n Hn. unfold visible_start, Py.mod_. simpl.
    destruct (Z.eqb_spec n 0); [contradiction | reflexivity]. }
  rewrite (frame_ok w 0%float 0%float 0 0);
    rewrite ?Hbuf, ?Ho, ?Hv; try reflexivity; apply Hstart; lia.
Qed.

Lemma render_loop_idle (events : list (list (Z * Z))) : forall w,
  scene_width <> 0 ->
  camera w = (0%float, 0%float) ->
  mouse_delta_buffer w = (0, 0) ->
  exists cs,
    render_loop faults max_y max_x scene_width scene_height scene
                (List.map (fun _ => []) events) w
    = (Ok tt, mkWorld 0%float 0%float (0, 0) (calls w ++ cs))
    /\ List.length (filter (fun c => match c with Refresh => true | _ => false end) cs)
       = List.length events.
Proof.
  induction events as [|evs rest IH]; intros w HW Hcam Hbuf; simpl.
  - exists []. destruct w as [o v b cs]. injection Hcam as -> ->.
    simpl in *. subst b. now rewrite app_nil_r.
  - unfold bind. simpl. rewrite (frame_idle w HW Hcam Hbuf).
    destruct (IH (mkWorld 0%float 0%float (0, 0) (calls w ++ frame_calls max_y max_x scene_width scene_height scene 0 0)) HW
                 eq_refl eq_refl) as (cs & -> & Hcount).
    exists (frame_calls max_y max_x scene_width scene_height scene 0 0 ++ cs). simpl. rewrite <- app_assoc.
    split; [reflexivity|].
    unfold frame_calls. simpl. rewrite !filter_app, !length_app. simpl.
    unfold row_calls. rewrite Hcount.
    replace (List.length (filter _ (List.map _ (Py.range max_y)))) with 0%nat; [lia|].
    induction (Py.range max_y); simpl; auto.
Qed.
End FrameOk.

(** ** [generate_scene] *)

Section SetNth.
Context {A : Type}.

Lemma length_set_nth (l : list A) n a :
  List.length (Py.set_nth l n a) = List.length l.
Proof.
  revert n. induction l as [|h t IH]; intros [|n]; simpl; auto.
Qed.

Lemma nth_set_nth (l : list A) n a d :
  (n < List.length l)%nat -> nth n (Py.set_nth l n a) d = a.
Proof.
  revert n. induction l as [|h t IH]; intros [|n]; simpl; intros Hn;
    try lia; auto. apply IH. lia.
Qed.

Lemma setitem_in_range (l : list A) i a :
  0 <= i < Py.len l -> Py.setitem l i a = Ok (Py.set_nth l (Z.to_nat i) a).
Proof.
  intros Hi. unfold Py.setitem, Py.len in *.
  destruct (Z.ltb_spec i 0); [lia|].
  destruct (Z.ltb_spec i 0); [lia|].
  destruct (Z.leb_spec (Z.of_nat (List.length l)) i); [lia | reflexivity].
Qed.
End SetNth.

Lemma put_hash_ok width height scene i :
  10 < height -> 0 <= i < width ->
  scene_shape width height scene ->
  exists scene', put_hash scene i = Ok scene' /\ scene_shape width height scene'.
Proof.
  intros Hh Hi [Hrows Hrow]. unfold put_hash.
  rewrite (getitem_in_range scene 10 []) by lia.
  change (Z.to_nat 10) with 10%nat.
  rewrite (setitem_in_range (nth 10 scene [])) by lia.
  rewrite (setitem_in_range scene) by lia.
  change (Z.to_nat 10) with 10%nat.
  eexists. split; [reflexivity|]. unfold scene_shape, Py.len in *.
  rewrite length_set_nth. split; [exact Hrows|].
  rewrite nth_set_nth by lia. now rewrite length_set_nth.
Qed.

Lemma put_hashes_ok width height cols : forall scene,
  10 < height -> Forall (fun i => 0 <= i < width) cols ->
  scene_shape width height scene ->
  exists scene', put_hashes scene cols = Ok scene' /\ scene_shape width height scene'.
Proof.
  induction cols as [|i cols IH]; intros scene Hh Hcols Hshape; simpl.
  - now exists scene.
  - inversion Hcols as [|? ? Hi Hrest]; subst.
    destruct (put_hash_ok width height scene i Hh Hi Hshape) as (s1 & -> & Hs1).
    now apply IH.
Qed.

Lemma blank_scene_shape width height :
  10 < height -> 0 <= width -> scene_shape width height (blank_scene width height).
Proof.
  intros Hh Hw. unfold scene_shape, blank_scene, Py.len.
  rewrite length_map. split; [rewrite length_range; lia|].
  assert (Hall : Forall (fun row : list ascii => Z.of_nat (List.length row) = width)
                        (List.map (fun _ : Z => List.map (fun _ : Z => " "%char)
                                                          (Py.range width))
                                  (Py.range height))).
  { apply Forall_map, Forall_forall. intros _ _.
    rewrite length_map, length_range. lia. }
  rewrite Forall_forall in Hall. apply Hall, nth_In.
  rewrite length_map. pose proof (length_range height). lia.
Qed.

Example demo_scene_generated :
  generate_scene (4 * SCENE_WIDTH_MULTIPLIER) (11 * SCENE_HEIGHT_MULTIPLIER)
  = Ok demo_scene.
Proof. reflexivity. Qed.

(** A terminal of 3 rows is too small for the object of line 77. *)
Example small_terminal_fails :
  generate_scene (80 * SCENE_WIDTH_MULTIPLIER) (3 * SCENE_HEIGHT_MULTIPLIER)
  = Raise IndexError.
Proof. reflexivity. Qed.

(** On a terminal of at least 4 rows and 4 columns the scene is built. *)
Lemma generate_scene_ok max_y max_x :
  4 <= max_y -> 4 <= max_x ->
  exists scene,
    generate_scene (max_x * SCENE_WIDTH_MULTIPLIER) (max_y * SCENE_HEIGHT_MULTIPLIER)
    = Ok scene
    /\ Py.len scene = max_y * SCENE_HEIGHT_MULTIPLIER.
Proof.
  intros Hy Hx. unfold SCENE_WIDTH_MULTIPLIER, SCENE_HEIGHT_MULTIPLIER, generate_scene.
  destruct (put_hashes_ok (max_x * 4) (max_y * 3) (Py.range2 5 15)
                          (blank_scene (max_x * 4) (max_y * 3)))
    as (scene & Hscene & Hrows & _).
  - lia.
  - vm_compute Py.range2. repeat constructor; lia.
  - apply blank_scene_shape; lia.
  - exists scene. split; assumption.
Qed.

(** ** Start-up with a failed event tap *)

(** C4 on the code: when [CGEventTapCreate] returns nothing, the exception
    of line 62 ends the listener thread and nothing else.  On a terminal
    of at least 4 rows and 4 columns the main thread builds the scene,
    enters the render loop and completes every iteration that is observed,
    with the camera at the origin: the process is not aborted. *)
Theorem listener_failure_not_fatal :
  forall faults max_y max_x events,
    4 <= max_y -> 4 <= max_x ->
    let p := main faults None max_y max_x events in
    mouse_listener_thread p = Dead (Exception "Unable to create event tap.")
    /\ main_thread p = Ok tt
    /\ camera (globals p) = (0%float, 0%float)
    /\ List.length (filter (fun c => match c with Refresh => true | _ => false end)
                           (calls (globals p)))
       = List.length events.
Proof.
  intros faults max_y max_x events Hy Hx p. subst p.
  unfold main, thread_start, start_mouse_listener, bind. simpl.
  unfold render_scene, bind, lift, emit, modify.
  destruct (generate_scene_ok max_y max_x Hy Hx) as (scene & -> & Hrows).
  match goal with
  | |- context [render_loop _ _ _ _ _ _ _ ?w0] =>
      destruct (render_loop_idle faults max_y max_x
                  (max_x * SCENE_WIDTH_MULTIPLIER) (max_y * SCENE_HEIGHT_MULTIPLIER)
                  scene Hrows
                  ltac:(unfold SCENE_HEIGHT_MULTIPLIER; lia) events w0
                  ltac:(unfold SCENE_WIDTH_MULTIPLIER; lia) eq_refl eq_refl)
        as (cs & -> & Hcount)
  end.
  simpl. repeat split. exact Hcount.
Qed.

Lemma listener_failure_not_fatal_witness :
  let p := main no_faults None 24 80 [[(3, 1)]; [(-2, 0)]; []] in
  mouse_listener_thread p = Dead (Exception "Unable to create event tap.")
  /\ main_thread p = Ok tt
  /\ camera (globals p) = (0%float, 0%float).
Proof.
  destruct (listener_failure_not_fatal no_faults 24 80 [[(3, 1)]; [(-2, 0)]; []])
    as (Hl & Hm & Hc & _); [lia | lia |].
  split; [exact Hl|]. split; [exact Hm | exact Hc].
Defined.

(** ** The motion buffer under interleaving *)

Module SamplerFacts.
Import Sampler.

Lemma run_app s1 s2 l : run (s1 ++ s2) l = run s2 (run s1 l).
Proof. unfold run. apply fold_left_app. Qed.

(** One call that runs alone keeps the books balanced. *)
Lemma op_conserves o l :
  accounted l = applied l ->
  accounted (run (stmts_of o) l) = applied (run (stmts_of o) l).
Proof.
  destruct l as [[ho vo [bx by_] cs] [cx cy] [ax ay]].
  unfold accounted, add2. simpl. intros [= Hx Hy].
  destruct o as [dx dy|]; cbn -[Z.add Z.sub Z.opp]; unfold add2; cbn -[Z.add Z.sub Z.opp];
    f_equal; lia.
Qed.

(** Calls that are not interleaved: what the drains have taken and what
    is still buffered add up to what the events have put in. *)
Lemma serial_conserves ops : forall l,
  accounted l = applied l ->
  accounted (run (serial ops) l) = applied (run (serial ops) l).
Proof.
  induction ops as [|o ops IH]; intros l Hl; simpl; [exact Hl|].
  rewrite run_app. apply IH, op_conserves, Hl.
Qed.

(** C3 on the code: the drain is the two statements of lines 101 and 102
    and is not atomic.  In [lost_update], which keeps the program order
    of both threads, the event [(3, -2)] is added to the buffer after the
    drain has read it and before the drain replaces it: the sample is
    applied, no drain ever consumes it, and nothing is left in the
    buffer. *)
Theorem drain_loses_sample :
  let l := run lost_update start in
  program_order lost_update = true
  /\ applied l = (3, 2)
  /\ consumed l = (0, 0)
  /\ mouse_delta_buffer (shared l) = (0, 0)
  /\ accounted l <> applied l.
Proof.
  vm_compute. repeat split; try reflexivity. discriminate.
Qed.

End SamplerFacts.

(** * Further properties of [main.py] *)

(** ** The scene that [generate_scene] builds *)

Section SetNthFacts.
Context {A : Type}.

Lemma nth_error_set_nth (l : list A) n m a :
  (n < List.length l)%nat ->
  nth_error (Py.set_nth l n a) m = if Nat.eqb m n then Some a else nth_error l m.
Proof.
  revert n m. induction l as [|h t IH]; intros [|n] [|m]; simpl; intros Hn;
    try lia; try reflexivity.
  apply IH. lia.
Qed.

Lemma Forall_set_nth (P : A -> Prop) (l : list A) n a :
  P a -> Forall P l -> Forall P (Py.set_nth l n a).
Proof.
  intros Ha. revert n. induction l as [|h t IH]; intros [|n] Hl; simpl;
    inversion Hl; subst; constructor; auto.
Qed.

Lemma getitem_out_of_range (l : list A) i :
  Py.len l <= i -> Py.getitem l i = Raise IndexError.
Proof.
  intros Hi. pose proof (len_nonneg l). unfold Py.getitem.
  destruct (Z.ltb_spec i 0); [lia|].
  destruct (Z.ltb_spec i 0); [lia|].
  destruct (Z.leb_spec (Py.len l) i); [reflexivity | lia].
Qed.

Lemma setitem_out_of_range (l : list A) i a :
  Py.len l <= i -> Py.setitem l i a = Raise IndexError.
Proof.
  intros Hi. pose proof (len_nonneg l). unfold Py.setitem.
  destruct (Z.ltb_spec i 0); [lia|].
  destruct (Z.ltb_spec i 0); [lia|].
  destruct (Z.leb_spec (Py.len l) i); [reflexivity | lia].
Qed.
End SetNthFacts.

Lemma scene_rect_row width height scene y :
  scene_rect width height scene -> 0 <= y < height ->
  exists row, nth_error scene (Z.to_nat y) = Some row
              /\ nth (Z.to_nat y) scene [] = row /\ Py.len row = width.
Proof.
  intros [Hrows Hall] Hy. unfold Py.len in Hrows.
  destruct (nth_error scene (Z.to_nat y)) as [row|] eqn:Hrow.
  - exists row. split; [reflexivity|]. split.
    + now apply nth_error_nth.
    + rewrite Forall_forall in Hall. eapply Hall, nth_error_In, Hrow.
  - apply nth_error_None in Hrow. lia.
Qed.

Lemma blank_scene_rect width height :
  scene_rect (Z.max 0 width) (Z.max 0 height) (blank_scene width height).
Proof.
  unfold scene_rect, blank_scene, Py.len. rewrite length_map, length_range.
  split; [reflexivity|].
  apply Forall_map, Forall_forall. intros _ _.
  now rewrite length_map, length_range.
Qed.

Lemma blank_scene_cell width height y x :
  0 <= y < height -> 0 <= x < width ->
  cell (blank_scene width height) y x = Some " "%char.
Proof.
  intros Hy Hx. unfold cell, blank_scene, Py.range.
  rewrite nth_error_map, nth_error_map, nth_error_seq.
  destruct (Nat.ltb_spec (Z.to_nat y) (Z.to_nat height)); [simpl | lia].
  rewrite nth_error_map, nth_error_map, nth_error_seq.
  destruct (Nat.ltb_spec (Z.to_nat x) (Z.to_nat width)); [reflexivity | lia].
Qed.

(** One assignment [scene[10][i] = "#"] inside the scene: it succeeds,
    keeps the rectangle and changes the cell [(10, i)] alone. *)
Lemma put_hash_cell width height scene i :
  10 < height -> 0 <= i < width ->
  scene_rect width height scene ->
  exists scene',
    put_hash scene i = Ok scene'
    /\ scene_rect width height scene'
    /\ forall y x, 0 <= y -> 0 <= x ->
         cell scene' y x
         = if (y =? 10) && (x =? i) then Some "#"%char else cell scene y x.
Proof.
  intros Hh Hi Hrect.
  destruct (scene_rect_row width height scene 10 Hrect ltac:(lia))
    as (row & Hnth & Hrow & Hlen).
  destruct Hrect as [Hrows Hall]. unfold put_hash.
  rewrite (getitem_in_range scene 10 []) by lia. rewrite Hrow.
  rewrite (setitem_in_range row) by lia.
  rewrite (setitem_in_range scene) by lia.
  eexists. split; [reflexivity|]. unfold scene_rect, Py.len in *. split; [split|].
  - now rewrite length_set_nth.
  - apply Forall_set_nth; [now rewrite length_set_nth | exact Hall].
  - intros y x Hy Hx. unfold cell.
    rewrite nth_error_set_nth by lia.
    destruct (Z.eqb_spec y 10) as [->|Hy10].
    + rewrite Nat.eqb_refl. cbn [andb].
      rewrite nth_error_set_nth by lia. rewrite Hnth.
      destruct (Z.eqb_spec x i) as [->|Hxi].
      * now rewrite Nat.eqb_refl.
      * destruct (Nat.eqb_spec (Z.to_nat x) (Z.to_nat i)); [lia | reflexivity].
    + destruct (Nat.eqb_spec (Z.to_nat y) (Z.to_nat 10)); [lia | reflexivity].
Qed.

Lemma put_hashes_cell width height cols : forall scene,
  10 < height -> Forall (fun i => 0 <= i < width) cols ->
  scene_rect width height scene ->
  exists scene',
    put_hashes scene cols = Ok scene'
    /\ scene_rect width height scene'
    /\ forall y x, 0 <= y -> 0 <= x ->
         cell scene' y x
         = if (y =? 10) && existsb (Z.eqb x) cols then Some "#"%char
           else cell scene y x.
Proof.
  induction cols as [|i cols IH]; intros scene Hh Hcols Hrect; simpl.
  - exists scene. repeat split; try apply Hrect.
    intros y x _ _. now rewrite andb_false_r.
  - inversion Hcols as [|? ? Hi Hrest]; subst.
    destruct (put_hash_cell width height scene i Hh Hi Hrect) as (s1 & -> & Hs1 & Hc1).
    destruct (IH s1 Hh Hrest Hs1) as (s2 & -> & Hs2 & Hc2).
    exists s2. split; [reflexivity|]. split; [exact Hs2|].
    intros y x Hy Hx. rewrite Hc2, Hc1 by assumption.
    destruct (y =? 10), (x =? i), (existsb (Z.eqb x) cols); reflexivity.
Qed.

(** A column at or past the right edge stops the loop of lines 76-77. *)
Lemma put_hashes_fails width height cols : forall scene,
  10 < height -> Forall (fun i => 0 <= i) cols ->
  Exists (fun i => width <= i) cols ->
  scene_rect width height scene ->
  put_hashes scene cols = Raise IndexError.
Proof.
  induction cols as [|i cols IH]; intros scene Hh Hcols Hout Hrect; simpl.
  - inversion Hout.
  - inversion Hcols as [|? ? Hi Hrest]; subst.
    destruct (Z.lt_ge_cases i width) as [Hin|Hpast].
    + destruct (put_hash_cell width height scene i Hh ltac:(lia) Hrect)
        as (s1 & -> & Hs1 & _).
      apply IH; try assumption.
      inversion Hout; subst; [lia | assumption].
    + destruct (scene_rect_row width height scene 10 Hrect ltac:(lia))
        as (row & _ & Hrow & Hlen).
      destruct Hrect as [Hrows _]. unfold put_hash.
      rewrite (getitem_in_range scene 10 []) by lia. rewrite Hrow.
      now rewrite setitem_out_of_range by lia.
Qed.

Lemma hash_columns x :
  existsb (Z.eqb x) (Py.range2 5 15) = (5 <=? x) && (x <? 15).
Proof.
  change (Py.range2 5 15) with [5; 6; 7; 8; 9; 10; 11; 12; 13; 14].
  cbn [existsb].
  repeat match goal with
         | |- context [x =? ?k] => destruct (Z.eqb_spec x k); [subst; reflexivity|]
         end.
  cbn [orb].
  destruct (Z.leb_spec 5 x), (Z.ltb_spec x 15); try reflexivity. lia.
Qed.

Lemma generate_scene_cells width height :
  15 <= width -> 11 <= height ->
  exists scene,
    generate_scene width height = Ok scene
    /\ scene_rect width height scene
    /\ forall y x, 0 <= y < height -> 0 <= x < width ->
         cell scene y x = Some (scene_char y x).
Proof.
  intros Hw Hh. unfold generate_scene.
  pose proof (blank_scene_rect width height) as Hblank.
  rewrite !Z.max_r in Hblank by lia.
  destruct (put_hashes_cell width height (Py.range2 5 15)
              (blank_scene width height) ltac:(lia)) as (scene & -> & Hrect & Hcell).
  - change (Py.range2 5 15) with [5; 6; 7; 8; 9; 10; 11; 12; 13; 14].
    repeat constructor; lia.
  - exact Hblank.
  - exists scene. split; [reflexivity|]. split; [exact Hrect|].
    intros y x Hy Hx. rewrite Hcell by lia.
    rewrite hash_columns, blank_scene_cell by lia. unfold scene_char.
    rewrite <- andb_assoc. now destruct (_ && _).
Qed.

Lemma generate_scene_fails width height :
  height <= 10 \/ width <= 14 ->
  generate_scene width height = Raise IndexError.
Proof.
  intros Hsmall. unfold generate_scene.
  pose proof (blank_scene_rect width height) as Hblank.
  destruct (Z.le_gt_cases height 10) as [Hh|Hh].
  - change (Py.range2 5 15) with (5 :: Py.range2 6 15). simpl. unfold put_hash.
    destruct Hblank as [Hrows _].
    now rewrite getitem_out_of_range by lia.
  - rewrite (Z.max_r 0 height) in Hblank by lia.
    apply (put_hashes_fails (Z.max 0 width) height); try assumption; try lia.
    + change (Py.range2 5 15) with [5; 6; 7; 8; 9; 10; 11; 12; 13; 14].
      repeat constructor; lia.
    + change (Py.range2 5 15) with [5; 6; 7; 8; 9; 10; 11; 12; 13; 14].
      apply Exists_exists. exists 14. split; [simpl; tauto | lia].
Qed.

(** X1: [generate_scene] needs room for the object of lines 76-77: with at
    most 10 rows or at most 14 columns it raises IndexError. *)
Theorem generate_scene_needs_room :
  forall width height,
    height <= 10 \/ width <= 14 ->
    generate_scene width height = Raise IndexError.
Proof. exact generate_scene_fails. Qed.

Lemma generate_scene_needs_room_witness :
  generate_scene 14 40 = Raise IndexError
  /\ generate_scene 40 10 = Raise IndexError
  /\ generate_scene 0 0 = Raise IndexError.
Proof.
  split; [|split]; apply generate_scene_needs_room; lia.
Defined.

(** X2: with at least 11 rows and 15 columns [generate_scene] returns a
    rectangle of [height] rows of [width] cells, blank except for the ten
    cells of row 10 in columns 5 to 14, which hold the object. *)
Theorem generate_scene_builds_scene :
  forall width height,
    15 <= width -> 11 <= height ->
    exists scene,
      generate_scene width height = Ok scene
      /\ Py.len scene = height
      /\ Forall (fun row => Py.len row = width) scene
      /\ forall y x, 0 <= y < height -> 0 <= x < width ->
           cell scene y x
           = Some (if (y =? 10) && (5 <=? x) && (x <? 15) then "#"%char else " "%char).
Proof.
  intros W H HW HH.
  destruct (generate_scene_cells W H HW HH) as (scene & Hgen & [Hrows Hall] & Hcell).
  exists scene. repeat split; assumption.
Qed.

Lemma generate_scene_builds_scene_witness :
  exists scene,
    generate_scene 16 33 = Ok scene
    /\ Py.len scene = 33
    /\ cell scene 10 5 = Some "#"%char
    /\ cell scene 10 15 = Some " "%char
    /\ cell scene 9 5 = Some " "%char.
Proof.
  destruct (generate_scene_builds_scene 16 33) as (scene & Hgen & Hrows & _ & Hcell);
    [lia | lia |].
  exists scene. split; [exact Hgen|]. split; [exact Hrows|].
  repeat split; rewrite Hcell by lia; reflexivity.
Defined.

(** ** Terminals too small for the scene *)

(** X3: on a terminal of at most 3 rows or at most 3 columns
    [render_scene] ends in IndexError while building the scene: the display
    has been set up and nothing has been drawn. *)
Theorem render_scene_small_terminal :
  forall faults max_y max_x events w,
    max_y <= 3 \/ max_x <= 3 ->
    render_scene faults max_y max_x events w
    = (Raise IndexError, record_calls [CursSet 0; NoDelay true] w).
Proof.
  intros faults max_y max_x events w Hsmall.
  unfold render_scene, bind, lift, emit, modify.
  rewrite generate_scene_fails.
  - unfold record_call, record_calls. simpl. now rewrite <- app_assoc.
  - unfold SCENE_WIDTH_MULTIPLIER, SCENE_HEIGHT_MULTIPLIER. lia.
Qed.

Lemma render_scene_small_terminal_witness :
  render_scene no_faults 3 80 [[(1, 1)]] initial_world
  = (Raise IndexError, record_calls [CursSet 0; NoDelay true] initial_world).
Proof.
  apply render_scene_small_terminal. lia.
Defined.

(** ** Motion between two frames *)

Lemma callbacks_state evs : forall w,
  for_each evs (fun d => mouse_event_callback (fst d) (snd d)) w
  = (Ok tt,
     mkWorld (scene_offset w) (vertical_offset w)
             (fst (mouse_delta_buffer w) + total_dx evs,
              snd (mouse_delta_buffer w) - total_dy evs)
             (calls w ++ repeat WarpCursor (List.length evs))).
Proof.
  unfold total_dx, total_dy.
  induction evs as [|[dx dy] evs IH]; intros w; simpl.
  - destruct w as [o v [bx by_] cs]. simpl.
    now rewrite Z.add_0_r, Z.sub_0_r, app_nil_r.
  - unfold bind. rewrite mouse_event_callback_ok, IH. simpl.
    rewrite <- app_assoc. simpl. f_equal.
    f_equal. f_equal; lia.
Qed.

(** X4: the callbacks of a list of mouse-moved events always complete; they
    add the sum of the [dx] to the first component of the buffer, subtract
    the sum of the [dy] from the second, leave the camera offsets alone and
    warp the pointer once per event. *)
Theorem callbacks_accumulate :
  forall evs w,
    for_each evs (fun d => mouse_event_callback (fst d) (snd d)) w
    = (Ok tt,
       mkWorld (scene_offset w) (vertical_offset w)
               (fst (mouse_delta_buffer w) + total_dx evs,
                snd (mouse_delta_buffer w) - total_dy evs)
               (calls w ++ repeat WarpCursor (List.length evs))).
Proof. intros evs w. apply callbacks_state. Qed.

Section FrameState.
Variable faults : list call -> call -> bool.
Variables (max_y max_x scene_width scene_height : Z) (scene : scene_t).

Lemma rows_state sx sy rs : forall w,
  exists r cs,
    for_each rs (draw_row faults max_x scene_width scene_height scene sx sy) w
    = (r, record_calls cs w).
Proof.
  induction rs as [|row rs IH]; intros w; simpl.
  - exists (Ok tt), []. now rewrite record_calls_nil.
  - unfold bind. rewrite draw_row_faults.
    unfold draw_row at 1, bind, lift, addstr.
    destruct (Py.mod_ _ _) as [ay|e].
    2:{ exists (Raise e), []. now rewrite record_calls_nil. }
    destruct (Py.getitem _ _) as [scene_row|e].
    2:{ exists (Raise e), []. now rewrite record_calls_nil. }
    rewrite guarded_write, record_call_calls.
    destruct (IH (record_calls [AddStr row 0 (Py.str_slice (window_line scene_width max_x
                                                     sx scene_row) 0 max_x)] w))
      as (r & cs & ->).
    rewrite record_calls_app. now exists r, (AddStr row 0 (Py.str_slice (window_line
      scene_width max_x sx scene_row) 0 max_x) :: cs).
Qed.

(** Drawing only talks to the display. *)
Lemma draw_state w :
  exists r cs,
    draw faults max_y max_x scene_width scene_height scene w = (r, record_calls cs w).
Proof.
  unfold draw, bind, get, lift.
  destruct (visible_start (scene_offset w) _) as [sx|e].
  2:{ exists (Raise e), []. now rewrite record_calls_nil. }
  destruct (visible_start (vertical_offset w) _) as [sy|e].
  2:{ exists (Raise e), []. now rewrite record_calls_nil. }
  destruct (rows_state sx sy (Py.range max_y) w) as ([[]|e] & cs & ->).
  - unfold draw_crosshair, addch. rewrite guarded_write, record_call_calls.
    rewrite record_calls_app. now eexists _, _.
  - now exists (Raise e), cs.
Qed.

(** The state a frame leaves when the two conversions of lines 105-106
    succeed, whatever happens in the drawing. *)
Lemma frame_state w fx fy :
  Py.float_of_int (fst (mouse_delta_buffer w)) = Ok fx ->
  Py.float_of_int (snd (mouse_delta_buffer w)) = Ok fy ->
  exists r cs,
    frame faults max_y max_x scene_width scene_height scene w
    = (r, mkWorld (scene_offset w - fx * SCROLL_SPEED)%float
                  (vertical_offset w + fy * SCROLL_SPEED)%float
                  (0, 0) (calls w ++ cs)).
Proof.
  intros Hx Hy. unfold frame, bind. simpl.
  rewrite (update_camera_ok (record_call Clear w) fx fy Hx Hy).
  match goal with
  | |- context [draw _ _ _ _ _ _ ?w1] => destruct (draw_state w1) as ([[]|e] & cs & ->)
  end.
  - unfold emit, modify, record_call, record_calls. simpl.
    eexists _, _. rewrite <- !app_assoc. reflexivity.
  - unfold record_calls. simpl. eexists _, _. rewrite <- !app_assoc. reflexivity.
Qed.
End FrameState.

(** X5: the events that arrive between two frames are summed as integers
    in the buffer and scaled once: after the callbacks of [evs] and one
    frame the stored offsets are
    [scene_offset - float (bx + sum dx) * SCROLL_SPEED] and
    [vertical_offset + float (by - sum dy) * SCROLL_SPEED], and the buffer
    is empty again. *)
Theorem motion_summed_then_scaled :
  forall faults max_y max_x scene_width scene_height scene evs w fx fy,
    Py.float_of_int (fst (mouse_delta_buffer w) + total_dx evs) = Ok fx ->
    Py.float_of_int (snd (mouse_delta_buffer w) - total_dy evs) = Ok fy ->
    let w' := snd (render_loop faults max_y max_x scene_width scene_height scene
                               [evs] w) in
    scene_offset w' = (scene_offset w - fx * SCROLL_SPEED)%float
    /\ vertical_offset w' = (vertical_offset w + fy * SCROLL_SPEED)%float
    /\ mouse_delta_buffer w' = (0, 0).
Proof.
  intros faults max_y max_x W H scene evs w fx fy Hx Hy w'. subst w'.
  cbn [render_loop]. unfold bind. rewrite callbacks_state.
  match goal with
  | |- context [frame _ _ _ _ _ _ ?w1] =>
      destruct (frame_state faults max_y max_x W H scene w1 fx fy Hx Hy)
        as ([[]|e] & cs & ->)
  end; simpl; repeat split.
Qed.

Lemma motion_summed_then_scaled_witness :
  let w' := snd (render_loop no_faults 11 4 16 33 demo_scene
                             [[(3, 1); (-10, 4); (2, 0)]] demo_world) in
  scene_offset w' = (100.5 - 2 * SCROLL_SPEED)%float
  /\ vertical_offset w' = (-3 + -7 * SCROLL_SPEED)%float
  /\ mouse_delta_buffer w' = (0, 0).
Proof.
  apply (motion_summed_then_scaled no_faults 11 4 16 33 demo_scene
           [(3, 1); (-10, 4); (2, 0)] demo_world 2%float (-7)%float);
    reflexivity.
Defined.

(** ** What a frame shows *)

Lemma update_camera_inv w w1 :
  update_camera w = (Ok tt, w1) ->
  exists fx fy,
    Py.float_of_int (fst (mouse_delta_buffer w)) = Ok fx
    /\ Py.float_of_int (snd (mouse_delta_buffer w)) = Ok fy
    /\ w1 = mkWorld (scene_offset w - fx * SCROLL_SPEED)%float
                    (vertical_offset w + fy * SCROLL_SPEED)%float
                    (0, 0) (calls w).
Proof.
  unfold update_camera, advance, bind, read_deltas, get, reset_deltas, modify, lift.
  simpl. destruct (Py.float_of_int (fst _)) as [fx|]; simpl; [|discriminate].
  destruct (Py.float_of_int (snd _)) as [fy|]; simpl; [|discriminate].
  intros [= <-]. now exists fx, fy.
Qed.

Lemma visible_start_range offset size start :
  0 < size -> visible_start offset size = Ok start -> 0 <= start < size.
Proof.
  intros Hsize. unfold visible_start, Py.mod_.
  destruct (Py.int_of_float offset) as [i|]; [|discriminate].
  destruct (Z.eqb_spec size 0); [discriminate|].
  intros [= <-]. now apply Z.mod_pos_bound.
Qed.

Lemma frame_done :
  forall faults max_y max_x scene_width scene_height scene w w',
    Py.len scene = scene_height ->
    0 < scene_height ->
    0 < scene_width ->
    frame faults max_y max_x scene_width scene_height scene w = (Ok tt, w') ->
    exists start_x start_y,
      visible_start (scene_offset w') scene_width = Ok start_x
      /\ visible_start (vertical_offset w') scene_height = Ok start_y
      /\ 0 <= start_x < scene_width
      /\ 0 <= start_y < scene_height
      /\ mouse_delta_buffer w' = (0, 0)
      /\ calls w'
         = calls w
           ++ Clear
              :: List.map (fun r => AddStr r 0 (row_text max_x scene_width scene_height
                                                        scene start_x start_y r))
                          (Py.range max_y)
              ++ [AddCh (max_y / 2) (max_x / 2) "+"%char; HideCursor; Refresh].
Proof.
  intros faults max_y max_x W H scene w w' Hrows HH HW Hdone.
  pose proof Hdone as Hframe.
  unfold frame, bind in Hframe. simpl in Hframe.
  destruct (update_camera _) as [[[]|e] w1] eqn:Hcam; [|discriminate].
  destruct (update_camera_inv _ _ Hcam) as (fx & fy & Hx & Hy & ->).
  simpl in Hx, Hy.
  destruct (visible_start (scene_offset w - fx * SCROLL_SPEED)%float W)
    as [sx|e] eqn:Hsx.
  2:{ unfold draw, bind, get, lift in Hframe. simpl in Hframe.
      rewrite Hsx in Hframe. discriminate. }
  destruct (visible_start (vertical_offset w + fy * SCROLL_SPEED)%float H)
    as [sy|e] eqn:Hsy.
  2:{ unfold draw, bind, get, lift in Hframe. simpl in Hframe.
      rewrite Hsx, Hsy in Hframe. discriminate. }
  clear Hframe Hcam.
  rewrite (frame_ok faults max_y max_x W H scene Hrows HH w fx fy sx sy
                    Hx Hy Hsx Hsy) in Hdone.
  injection Hdone as <-. simpl.
  exists sx, sy. split; [exact Hsx|]. split; [exact Hsy|].
  split; [now apply (visible_start_range _ _ _ HW Hsx)|].
  split; [now apply (visible_start_range _ _ _ HH Hsy)|].
  split; reflexivity.
Qed.

(** X6: a frame that completes on a scene of [scene_height] rows has
    emptied the buffer and sent the display one clear, the [max_y] rows of
    the window anchored at [int(scene_offset) % scene_width] and
    [int(vertical_offset) % scene_height] of the offsets it has just stored,
    the crosshair, and one refresh, in this order. *)
Theorem frame_draws_window :
  forall faults max_y max_x scene_width scene_height scene w w',
    Py.len scene = scene_height ->
    0 < scene_height ->
    0 < scene_width ->
    frame faults max_y max_x scene_width scene_height scene w = (Ok tt, w') ->
    exists start_x start_y,
      visible_start (scene_offset w') scene_width = Ok start_x
      /\ visible_start (vertical_offset w') scene_height = Ok start_y
      /\ 0 <= start_x < scene_width
      /\ 0 <= start_y < scene_height
      /\ mouse_delta_buffer w' = (0, 0)
      /\ calls w'
         = calls w
           ++ Clear
              :: List.map (fun r => AddStr r 0 (row_text max_x scene_width scene_height
                                                        scene start_x start_y r))
                          (Py.range max_y)
              ++ [AddCh (max_y / 2) (max_x / 2) "+"%char; HideCursor; Refresh].
Proof. exact frame_done. Qed.

Lemma frame_draws_window_witness :
  exists w',
    frame no_faults 11 4 16 33 demo_scene aim_world = (Ok tt, w')
    /\ visible_start (scene_offset w') 16 = Ok 3
    /\ visible_start (vertical_offset w') 33 = Ok 0
    /\ nth_error (calls w') 11 = Some (AddStr 10 0 "  ##").
Proof.
  destruct (frame no_faults 11 4 16 33 demo_scene aim_world) as [r w'] eqn:Hframe.
  assert (Hr : r = Ok tt) by (now vm_compute in Hframe; injection Hframe as <- _).
  subst r. exists w'. split; [reflexivity|].
  destruct (frame_draws_window no_faults 11 4 16 33 demo_scene aim_world w'
              eq_refl ltac:(lia) ltac:(lia) Hframe)
    as (sx & sy & Hsx & Hsy & _ & _ & _ & Hcalls).
  vm_compute in Hframe. injection Hframe as <-.
  repeat split; reflexivity.
Defined.

Section SliceAll.
Context {A : Type}.

(** [l[0:b]] is the whole of [l] when [b] is not below its length. *)
Lemma slice_prefix_all (l : list A) b : Py.len l <= b -> Py.slice l 0 b = l.
Proof.
  intros Hb. pose proof (len_nonneg l). unfold Py.slice.
  rewrite !clamp_nonneg by lia.
  rewrite (Z.min_l 0), (Z.min_r b) by lia.
  simpl skipn. rewrite Z.sub_0_r. unfold Py.len.
  rewrite Nat2Z.id. apply firstn_all.
Qed.
End SliceAll.

Lemma str_slice_prefix_all s b :
  Z.of_nat (String.length s) <= b -> Py.str_slice s 0 b = s.
Proof.
  intros Hb. unfold Py.str_slice.
  rewrite slice_prefix_all.
  - apply string_of_list_ascii_of_string.
  - rewrite <- length_join. unfold Py.join.
    now rewrite string_of_list_ascii_of_string.
Qed.

Lemma row_text_cells max_x scene_width scene_height scene start_x start_y r :
  scene_rect scene_width scene_height scene ->
  0 < scene_height ->
  0 <= start_x < scene_width ->
  0 <= max_x <= scene_width ->
  let text := row_text max_x scene_width scene_height scene start_x start_y r in
  Z.of_nat (String.length text) = max_x
  /\ forall i, 0 <= i < max_x ->
       nth_error (list_ascii_of_string text) (Z.to_nat i)
       = cell scene ((start_y + r) mod scene_height) ((start_x + i) mod scene_width).
Proof.
  intros Hrect HH Hsx Hw text. subst text. unfold row_text.
  pose proof (Z.mod_pos_bound (start_y + r) scene_height HH) as Hay.
  destruct (scene_rect_row scene_width scene_height scene _ Hrect Hay)
    as (row & Hnth & -> & Hlen).
  pose proof (window_line_length scene_width max_x start_x row Hlen Hsx
                                 ltac:(lia)) as Hlength.
  rewrite Z.min_l in Hlength by lia.
  rewrite str_slice_prefix_all by lia.
  split; [exact Hlength|].
  intros i Hi. unfold cell. rewrite Hnth.
  apply window_line_nth; [exact Hlen | exact Hsx | lia].
Qed.

(** X7: on a rectangular scene and a viewport no wider than the scene, the
    text written for viewport row [r] has exactly [max_x] characters, and
    its character [i] is the scene cell at row [(start_y + r) mod H] and
    column [(start_x + i) mod W]: the viewport samples the scene as a
    torus, and the cut [line[:max_x]] removes nothing. *)
Theorem viewport_samples_torus :
  forall max_x scene_width scene_height scene start_x start_y r,
    Py.len scene = scene_height ->
    Forall (fun row => Py.len row = scene_width) scene ->
    0 < scene_height ->
    0 <= start_x < scene_width ->
    0 <= max_x <= scene_width ->
    let scene_row := nth (Z.to_nat ((start_y + r) mod scene_height)) scene [] in
    let text := Py.str_slice (window_line scene_width max_x start_x scene_row) 0 max_x in
    Z.of_nat (String.length text) = max_x
    /\ text = window_line scene_width max_x start_x scene_row
    /\ forall i, 0 <= i < max_x ->
         nth_error (list_ascii_of_string text) (Z.to_nat i)
         = cell scene ((start_y + r) mod scene_height) ((start_x + i) mod scene_width).
Proof.
  intros w W H scene sx sy r Hrows Hall HH Hsx Hw scene_row text.
  destruct (row_text_cells w W H scene sx sy r (conj Hrows Hall) HH Hsx Hw)
    as [Hlength Hcells].
  split; [exact Hlength|]. split; [|exact Hcells].
  subst text scene_row.
  pose proof (Z.mod_pos_bound (sy + r) H HH) as Hay.
  destruct (scene_rect_row W H scene _ (conj Hrows Hall) Hay) as (row & _ & -> & Hlen).
  pose proof (window_line_length W w sx row Hlen Hsx ltac:(lia)) as Hl.
  apply str_slice_prefix_all. lia.
Qed.

Lemma viewport_samples_torus_witness :
  let text := Py.str_slice (window_line 16 4 14 (nth 10 demo_scene [])) 0 4 in
  text = "#   "%string
  /\ nth_error (list_ascii_of_string text) 2 = cell demo_scene 10 0.
Proof.
  destruct (viewport_samples_torus 4 16 33 demo_scene 14 43 0) as (_ & _ & Hcells);
    [reflexivity | | lia | lia | lia |].
  - repeat constructor.
  - split; [reflexivity|]. exact (Hcells 2 ltac:(lia)).
Defined.

(** ** The anchor near zero *)

Lemma Qtrunc_small q : (-1 < q)%Q -> (q < 1)%Q -> Py.Qtrunc q = 0.
Proof.
  destruct q as [n d]. unfold Qlt, Py.Qtrunc. simpl. intros Hlo Hhi.
  destruct (Z.le_gt_cases 0 n).
  - apply Z.quot_small. lia.
  - replace n with (- - n) by lia. rewrite Z.quot_opp_l by lia.
    rewrite Z.quot_small by lia. reflexivity.
Qed.

(** X8: every offset strictly between -1 and 1 has the anchor 0: [int]
    rounds toward zero, so the window rests at column 0 over an interval of
    offsets of length 2, against length 1 for every other column. *)
Theorem anchor_rests_at_zero :
  forall offset size q,
    size <> 0 ->
    Py.value offset = Some q ->
    (-1 < q)%Q -> (q < 1)%Q ->
    visible_start offset size = Ok 0.
Proof.
  intros o n q Hn Hq Hlo Hhi.
  rewrite (visible_start_value o n q Hn Hq), (Qtrunc_small q Hlo Hhi).
  now rewrite Z.mod_0_l.
Qed.

Lemma anchor_rests_at_zero_witness :
  visible_start (0 - 4 * SCROLL_SPEED)%float 16 = Ok 0
  /\ visible_start (0 - (-4) * SCROLL_SPEED)%float 16 = Ok 0.
Proof.
  split; eapply anchor_rests_at_zero;
    first [lia | reflexivity | now vm_compute].
Defined.

(** ** The picture of a frame of the program *)

Lemma nth_error_range n r :
  0 <= r < n -> nth_error (Py.range n) (Z.to_nat r) = Some r.
Proof.
  intros Hr. unfold Py.range. rewrite nth_error_map, nth_error_seq.
  destruct (Nat.ltb_spec (Z.to_nat r) (Z.to_nat n)); [|lia].
  simpl. f_equal. lia.
Qed.

(** X9: in the program, where the scene is 4 times as wide and 3 times as
    high as a terminal of at least 4 rows and 4 columns, a frame that
    completes has written, for every row [r] of the terminal, a text of
    exactly [max_x] characters at [(r, 0)]; its character [i] is ["#"] when
    the scene cell at row [(start_y + r) mod H], column [(start_x + i) mod W]
    lies on the object (row 10, columns 5 to 14), and a blank otherwise. *)
Theorem frame_picture :
  forall faults max_y max_x scene w w',
    4 <= max_y -> 4 <= max_x ->
    let scene_width := max_x * SCENE_WIDTH_MULTIPLIER in
    let scene_height := max_y * SCENE_HEIGHT_MULTIPLIER in
    generate_scene scene_width scene_height = Ok scene ->
    frame faults max_y max_x scene_width scene_height scene w = (Ok tt, w') ->
    exists start_x start_y,
      visible_start (scene_offset w') scene_width = Ok start_x
      /\ visible_start (vertical_offset w') scene_height = Ok start_y
      /\ forall r, 0 <= r < max_y ->
           exists text,
             nth_error (calls w') (List.length (calls w) + 1 + Z.to_nat r)
             = Some (AddStr r 0 text)
             /\ Z.of_nat (String.length text) = max_x
             /\ forall i, 0 <= i < max_x ->
                  nth_error (list_ascii_of_string text) (Z.to_nat i)
                  = Some (scene_char ((start_y + r) mod scene_height)
                                     ((start_x + i) mod scene_width)).
Proof.
  intros faults max_y max_x scene w w' Hy Hx W H Hgen Hframe.
  assert (HW : 15 <= W) by (subst W; unfold SCENE_WIDTH_MULTIPLIER; lia).
  assert (HH : 11 <= H) by (subst H; unfold SCENE_HEIGHT_MULTIPLIER; lia).
  destruct (generate_scene_cells W H HW HH) as (scene' & Hgen' & Hrect & Hcell).
  rewrite Hgen in Hgen'. injection Hgen' as <-.
  destruct (frame_done faults max_y max_x W H scene w w' (proj1 Hrect)
                       ltac:(lia) ltac:(lia) Hframe)
    as (sx & sy & Hsx & Hsy & Hsxr & Hsyr & _ & Hcalls).
  exists sx, sy. split; [exact Hsx|]. split; [exact Hsy|].
  intros r Hr.
  exists (row_text max_x W H scene sx sy r).
  assert (Hwide : 0 <= max_x <= W) by (subst W; unfold SCENE_WIDTH_MULTIPLIER; lia).
  destruct (row_text_cells max_x W H scene sx sy r Hrect ltac:(lia) Hsxr Hwide)
    as [Hlength Hcells].
  split; [|split; [exact Hlength|]].
  - rewrite Hcalls.
    rewrite nth_error_app2 by lia.
    replace (List.length (calls w) + 1 + Z.to_nat r - List.length (calls w))%nat
      with (S (Z.to_nat r)) by lia.
    cbn [nth_error].
    rewrite nth_error_app1 by (rewrite length_map; pose proof (length_range max_y); lia).
    rewrite nth_error_map, nth_error_range by lia. reflexivity.
  - intros i Hi. rewrite (Hcells i Hi). apply Hcell.
    + apply Z.mod_pos_bound. lia.
    + apply Z.mod_pos_bound. lia.
Qed.

Lemma frame_picture_witness :
  exists text,
    nth_error (calls (snd (frame no_faults 11 4 16 33 demo_scene aim_world))) 11
    = Some (AddStr 10 0 text)
    /\ text = "  ##"%string.
Proof.
  destruct (frame no_faults 11 4 16 33 demo_scene aim_world) as [r w'] eqn:Hframe.
  assert (Hr : r = Ok tt) by (now vm_compute in Hframe; injection Hframe as <- _).
  subst r.
  destruct (frame_picture no_faults 11 4 demo_scene aim_world w'
              ltac:(lia) ltac:(lia) eq_refl Hframe)
    as (sx & sy & _ & _ & Hrows).
  destruct (Hrows 10 ltac:(lia)) as (text & Hnth & _).
  exists text. split; [exact Hnth|].
  vm_compute in Hframe. injection Hframe as <-.
  vm_compute in Hnth. now injection Hnth as <-.
Defined.

(** ** Exceptions of the render loop *)

Lemma float_of_int_outcome n : float_outcome (Py.float_of_int n).
Proof.
  unfold Py.float_of_int, float_outcome.
  now destruct (binary_normalize _ _ _ _ _).
Qed.

Lemma visible_start_outcome offset size :
  size <> 0 -> float_outcome (visible_start offset size).
Proof.
  intros Hsize. unfold visible_start, Py.int_of_float, Py.mod_, float_outcome.
  destruct (Z.eqb_spec size 0); [contradiction|].
  destruct (Prim2SF offset) as [s| s | |s m e]; simpl; reflexivity || exact I.
Qed.

Section LoopOutcome.
Variable faults : list call -> call -> bool.
Variables (max_y max_x scene_width scene_height : Z) (scene : scene_t).
Hypothesis scene_rows : Py.len scene = scene_height.
Hypothesis scene_height_pos : 0 < scene_height.
Hypothesis scene_width_pos : 0 < scene_width.

Lemma update_camera_outcome w : float_outcome (fst (update_camera w)).
Proof.
  unfold update_camera, advance, bind, read_deltas, get, reset_deltas, modify, lift.
  simpl.
  pose proof (float_of_int_outcome (fst (mouse_delta_buffer w))) as Hx.
  destruct (Py.float_of_int (fst _)); simpl; [|exact Hx].
  pose proof (float_of_int_outcome (snd (mouse_delta_buffer w))) as Hy.
  destruct (Py.float_of_int (snd _)); simpl; [exact I | exact Hy].
Qed.

Lemma draw_outcome w :
  float_outcome (fst (draw faults max_y max_x scene_width scene_height scene w)).
Proof.
  unfold draw, bind, get, lift.
  pose proof (visible_start_outcome (scene_offset w) scene_width ltac:(lia)) as Hsx.
  destruct (visible_start (scene_offset w) _) as [sx|e]; [|exact Hsx].
  pose proof (visible_start_outcome (vertical_offset w) scene_height ltac:(lia)) as Hsy.
  destruct (visible_start (vertical_offset w) _) as [sy|e]; [|exact Hsy].
  rewrite (rows_ok faults max_x scene_width scene_height scene scene_rows
                   scene_height_pos).
  unfold draw_crosshair, addch. rewrite guarded_write. exact I.
Qed.

Lemma frame_outcome w :
  float_outcome (fst (frame faults max_y max_x scene_width scene_height scene w)).
Proof.
  unfold frame, bind. simpl.
  pose proof (update_camera_outcome (record_call Clear w)) as Hcam.
  destruct (update_camera _) as [[[]|e] w1]; [|exact Hcam].
  pose proof (draw_outcome w1) as Hdraw.
  destruct (draw _ _ _ _ _ _ _) as [[[]|e] w2]; [exact I | exact Hdraw].
Qed.

Lemma render_loop_outcome events : forall w,
  float_outcome
    (fst (render_loop faults max_y max_x scene_width scene_height scene events w)).
Proof.
  induction events as [|evs rest IH]; intros w; simpl; [exact I|].
  unfold bind. rewrite callbacks_state.
  match goal with
  | |- context [frame _ _ _ _ _ _ ?w1] =>
      pose proof (frame_outcome w1) as Hframe;
      destruct (frame faults max_y max_x scene_width scene_height scene w1)
        as [[[]|e] w2]
  end; [apply IH | exact Hframe].
Qed.
End LoopOutcome.

(** X11: on a terminal of at least 4 rows and 4 columns [render_scene]
    never indexes outside the scene and never divides by zero: whatever the
    events and the display faults, it completes the iterations observed or
    ends in one of the float exceptions, OverflowError (of [float(dx)] or
    [int(inf)]) or ValueError (of [int(nan)]). *)
Theorem render_scene_exceptions :
  forall faults max_y max_x events w,
    4 <= max_y -> 4 <= max_x ->
    let r := fst (render_scene faults max_y max_x events w) in
    r = Ok tt \/ r = Raise OverflowError \/ r = Raise ValueError.
Proof.
  intros faults max_y max_x events w Hy Hx r. subst r.
  unfold render_scene, bind, lift, emit, modify.
  destruct (generate_scene_ok max_y max_x Hy Hx) as (scene & -> & Hrows).
  match goal with
  | |- context [render_loop _ _ _ ?W ?H _ _ ?w0] =>
      pose proof (render_loop_outcome faults max_y max_x W H scene Hrows
                    ltac:(unfold SCENE_HEIGHT_MULTIPLIER; lia)
                    ltac:(unfold SCENE_WIDTH_MULTIPLIER; lia) events w0) as Hout;
      destruct (render_loop faults max_y max_x W H scene events w0) as [[[]|e] w1]
  end; simpl in *.
  - now left.
  - right. destruct e; try discriminate; [now right | now left].
Qed.

Lemma render_scene_exceptions_witness :
  fst (render_scene no_faults 4 4 [[(1, 1)]; [(2 ^ 1024, 0)]; [(1, 1)]] initial_world)
  = Raise OverflowError
  /\ fst (render_scene no_faults 4 4 [[(1, 1)]; [(2, 0)]] initial_world) = Ok tt.
Proof.
  split.
  - destruct (render_scene_exceptions no_faults 4 4
                [[(1, 1)]; [(2 ^ 1024, 0)]; [(1, 1)]] initial_world) as [H | [H | H]];
      [lia | lia | | exact H |]; now vm_compute in H.
  - destruct (render_scene_exceptions no_faults 4 4
                [[(1, 1)]; [(2, 0)]] initial_world) as [H | [H | H]];
      [lia | lia | exact H | |]; now vm_compute in H.
Defined.

(** ** A drain inside a callback *)

(** X12: a drain that falls between line 36 and line 37 of a callback
    takes the [dx] of the event without its [dy]; the [dy] reaches the
    camera with the next drain, one frame later. *)
Theorem drain_splits_event :
  forall dx dy l,
    Sampler.accounted l = Sampler.applied l ->
    let l1 := Sampler.run [Sampler.CallbackAddX dx; Sampler.RenderRead;
                           Sampler.RenderReset] l in
    let l2 := Sampler.run [Sampler.CallbackSubY dy; Sampler.RenderRead;
                           Sampler.RenderReset] l1 in
    Sampler.consumed l1 = Sampler.add2 (Sampler.applied l) (dx, 0)
    /\ Sampler.consumed l2 = Sampler.add2 (Sampler.consumed l1) (0, - dy)
    /\ Sampler.consumed l2 = Sampler.applied l2.
Proof.
  intros dx dy [[ho vo [bx by_] cs] [cx cy] [ax ay]] Hl.
  unfold Sampler.accounted in Hl. simpl in *. unfold Sampler.add2 in *. simpl in *.
  injection Hl as Hx Hy.
  repeat split; apply pair_equal_spec; split; lia.
Qed.

Lemma drain_splits_event_witness :
  Sampler.consumed
    (Sampler.run [Sampler.CallbackAddX 3; Sampler.RenderRead; Sampler.RenderReset]
                 Sampler.start) = (3, 0).
Proof.
  destruct (drain_splits_event 3 5 Sampler.start eq_refl) as (H1 & _).
  exact H1.
Defined.

(** ** Scrolling by one column *)

(** X13: on a row as wide as the scene and a viewport no wider than it,
    moving the anchor one column to the right, around the edge of the scene
    if need be, moves the text one character to the left: character [i] of
    the new window is character [i + 1] of the old one. *)
Theorem window_scrolls_by_one :
  forall scene_width max_x start_x scene_row i,
    Py.len scene_row = scene_width ->
    0 <= start_x < scene_width ->
    0 <= max_x <= scene_width ->
    0 <= i -> i + 1 < max_x ->
    nth_error
      (list_ascii_of_string
         (window_line scene_width max_x ((start_x + 1) mod scene_width) scene_row))
      (Z.to_nat i)
    = nth_error
        (list_ascii_of_string (window_line scene_width max_x start_x scene_row))
        (Z.to_nat (i + 1)).
Proof.
  intros W w sx row i Hlen Hsx Hw Hi Hi1.
  pose proof (Z.mod_pos_bound (sx + 1) W ltac:(lia)) as Hsx1.
  rewrite !window_line_nth by lia.
  f_equal. f_equal.
  rewrite Z.add_mod_idemp_l by lia. f_equal. lia.
Qed.

Lemma window_scrolls_by_one_witness :
  window_line 10 4 9 demo_row = "9012"%string
  /\ window_line 10 4 ((9 + 1) mod 10) demo_row = "0123"%string
  /\ nth_error (list_ascii_of_string (window_line 10 4 ((9 + 1) mod 10) demo_row)) 2
     = nth_error (list_ascii_of_string (window_line 10 4 9 demo_row)) 3.
Proof.
  split; [reflexivity|]. split; [reflexivity|].
  apply (window_scrolls_by_one 10 4 9 demo_row 2); try reflexivity; lia.
Defined.

(** ** Where the buffer needs a lock *)

Lemma steps_run_cons s rest m :
  Steps.run (s :: rest) m = Steps.run rest (Steps.exec s m).
Proof. reflexivity. Qed.

Lemma deref_new_list h : Steps.deref (h ++ [(0, 0)]) (List.length h) = (0, 0).
Proof. unfold Steps.deref. now rewrite nth_middle. Qed.

Lemma deref_set_nth h r a :
  (r < List.length h)%nat -> Steps.deref (Py.set_nth h r a) r = a.
Proof. intros Hr. unfold Steps.deref. now apply nth_set_nth. Qed.

Lemma sections_unbroken_conserve n : forall sched m,
  (List.length sched <= n)%nat ->
  Steps.sections_unbroken sched = true ->
  (Steps.buffer_ref m < List.length (Steps.heap m))%nat ->
  Steps.accounted m = Steps.applied m ->
  Steps.accounted (Steps.run sched m) = Steps.applied (Steps.run sched m).
Proof.
  induction n as [|n IH]; intros sched m Hlen Hok Href Hm.
  - destruct sched; [exact Hm | simpl in Hlen; lia].
  - destruct sched as [|s1 rest]; [exact Hm|].
    destruct m as [h g rx ry cr ci [cx cy] [ax ay]].
    unfold Steps.accounted in Hm. simpl in Hm, Href.
    injection Hm as Hx Hy.
    destruct s1; try discriminate.
    + (* a drain *)
      destruct rest as [|s2 [|s3 rest]]; try discriminate;
        destruct s2; try discriminate.
      destruct s3; try discriminate.
      rewrite !steps_run_cons.
      apply IH; [simpl in Hlen; lia | exact Hok | |].
      * simpl. rewrite length_app. simpl. lia.
      * unfold Steps.accounted. simpl. rewrite deref_new_list. simpl.
        apply pair_equal_spec; split; lia.
    + (* line 36 *)
      destruct rest as [|s2 rest]; try discriminate.
      destruct s2; try discriminate.
      rewrite !steps_run_cons.
      apply IH; [simpl in Hlen; lia | exact Hok | |].
      * simpl. now rewrite length_set_nth.
      * unfold Steps.accounted. simpl. rewrite deref_set_nth by exact Href. simpl.
        apply pair_equal_spec; split; lia.
    + (* line 37 *)
      destruct rest as [|s2 rest]; try discriminate.
      destruct s2; try discriminate.
      rewrite !steps_run_cons.
      apply IH; [simpl in Hlen; lia | exact Hok | |].
      * simpl. now rewrite length_set_nth.
      * unfold Steps.accounted. simpl. rewrite deref_set_nth by exact Href. simpl.
        apply pair_equal_spec; split; lia.
Qed.

(** X10: with thread switches allowed inside the source lines, motion is
    conserved in every schedule that keeps three sections whole: the drain
    (the two reads of line 101 and the rebinding of line 102), the load and
    store of line 36, and the load and store of line 37.  In such a
    schedule, where drains may still fall between line 36 and line 37, what
    the drains have consumed and what the current list holds add up to
    what the events have put in. *)
Theorem unbroken_sections_conserve :
  forall sched m,
    Steps.sections_unbroken sched = true ->
    (Steps.buffer_ref m < List.length (Steps.heap m))%nat ->
    Steps.accounted m = Steps.applied m ->
    Steps.accounted (Steps.run sched m) = Steps.applied (Steps.run sched m).
Proof.
  intros sched m. apply (sections_unbroken_conserve (List.length sched)). lia.
Qed.

Lemma unbroken_sections_conserve_witness :
  let sched := [Steps.LoadX; Steps.StoreX 3;
                Steps.ReadX; Steps.ReadY; Steps.Rebind;
                Steps.LoadY; Steps.StoreY (-2);
                Steps.LoadX; Steps.StoreX 1;
                Steps.ReadX; Steps.ReadY; Steps.Rebind;
                Steps.LoadY; Steps.StoreY 4] in
  let m := Steps.run sched Steps.start in
  Steps.accounted m = Steps.applied m
  /\ Steps.consumed m = (4, 2)
  /\ Steps.deref (Steps.heap m) (Steps.buffer_ref m) = (0, -4).
Proof.
  split; [|split; reflexivity].
  apply unbroken_sections_conserve; [reflexivity | simpl; lia | reflexivity].
Defined.

(** Each of the sections is needed.  A drain between the load and the
    store of line 36 lets the store go to the list that line 102 has
    replaced: of the sample [(3, 2)] the 3 is applied and never consumed.
    An event between line 101 and line 102 is in the list that line 102
    replaces: the whole sample is applied and never consumed. *)
Example broken_sections_lose_motion :
  let m1 := Steps.run Steps.drain_inside_line_36 Steps.start in
  let m2 := Steps.run Steps.event_inside_drain Steps.start in
  Steps.sections_unbroken Steps.drain_inside_line_36 = false
  /\ Steps.applied m1 = (3, 2) /\ Steps.accounted m1 = (0, 2)
  /\ Steps.sections_unbroken Steps.event_inside_drain = false
  /\ Steps.applied m2 = (3, 2) /\ Steps.accounted m2 = (0, 0).
Proof. vm_compute. repeat split; reflexivity. Qed.

(** ** The viewport of the program against its scene *)



